(** * Chlorine contact tank: the disinfection calculation engine

    A shallow embedding of [src/utils/calculations.ts] (with the constants
    of [constants.ts] and the types of [types.ts]) and the properties of
    its two functions, [lookupVirusLrv] and [calculateResults].

    Numbers.  A JavaScript [number] is an IEEE-754 double.  The embedding
    keeps the exact value of every finite number (a real, no rounding and
    no overflow) and the three special values of the format, so that the
    program's divisions, comparisons, [Math.max], [Math.min] and
    [Math.pow] behave as they do in JavaScript when a divisor is zero or
    an operand is not a number.  The sign of zero is not tracked: zero
    stands for [+0].  The only divisor of [calculateResults] that can be
    zero behind no guard is [tKelvin], a sum, which IEEE arithmetic rounds
    to [+0] when it vanishes.

    The record a form hands to the engine holds finite numbers: the
    numeric fields of [AppState] are reals.  Field names are those that
    [calculations.ts] reads and writes ([naOClConc], [naOClDoseRate],
    [hoClFraction]).

    Exact arithmetic leaves out what double precision adds: a product or
    a power that overflows to [Infinity] or underflows to [0], and the
    [NaN] of [Infinity * 0].  Module [b64] embeds the same functions on
    binary64 numbers, where the code is evaluated as it runs; the
    properties that overflow breaks are refuted there ([b64_props]), and
    the signs of the outputs are settled there.  The other bounds are
    kept in exact arithmetic and stated as what an output never is
    ([never_negative], [never_above]), which a [NaN] satisfies too. *)

From Stdlib Require Import Reals Lra ZArith Bool.
From Stdlib Require Floats.

Open Scope R_scope.

(** ** The [number] type and its operators *)

Inductive number : Type :=
| Fin (r : R)
| PInf
| NInf
| NaN.

Coercion Fin : R >-> number.

Declare Scope js_scope.
Delimit Scope js_scope with js.
Bind Scope js_scope with number.

(** Sign of a real as JavaScript's division and multiplication by an
    infinity need it. *)
Definition sign_case {A : Type} (r : R) (zero pos neg : A) : A :=
  if Req_dec_T r 0 then zero
  else if Rlt_dec 0 r then pos else neg.

Definition nneg (a : number) : number :=
  match a with
  | Fin x => Fin (- x)
  | PInf => NInf
  | NInf => PInf
  | NaN => NaN
  end.

Definition nadd (a b : number) : number :=
  match a, b with
  | NaN, _ | _, NaN => NaN
  | Fin x, Fin y => Fin (x + y)
  | PInf, NInf | NInf, PInf => NaN
  | PInf, _ | _, PInf => PInf
  | NInf, _ | _, NInf => NInf
  end.

Definition nsub (a b : number) : number := nadd a (nneg b).

Definition nmul (a b : number) : number :=
  match a, b with
  | NaN, _ | _, NaN => NaN
  | Fin x, Fin y => Fin (x * y)
  | Fin x, PInf | PInf, Fin x => sign_case x NaN PInf NInf
  | Fin x, NInf | NInf, Fin x => sign_case x NaN NInf PInf
  | PInf, PInf | NInf, NInf => PInf
  | PInf, NInf | NInf, PInf => NInf
  end.

Definition ndiv (a b : number) : number :=
  match a, b with
  | NaN, _ | _, NaN => NaN
  | Fin x, Fin y =>
      if Req_dec_T y 0 then sign_case x NaN PInf NInf else Fin (x / y)
  | Fin _, PInf | Fin _, NInf => Fin 0
  | PInf, Fin y => if Rle_dec 0 y then PInf else NInf
  | NInf, Fin y => if Rle_dec 0 y then NInf else PInf
  | _, _ => NaN
  end.

(** [a > b] and [a <= b]: false as soon as an operand is [NaN]. *)
Definition ngt (a b : number) : bool :=
  match a, b with
  | NaN, _ | _, NaN => false
  | Fin x, Fin y => if Rlt_dec y x then true else false
  | PInf, PInf | NInf, _ | Fin _, PInf => false
  | PInf, _ | Fin _, NInf => true
  end.

Definition nle (a b : number) : bool :=
  match a, b with
  | NaN, _ | _, NaN => false
  | Fin x, Fin y => if Rle_dec x y then true else false
  | NInf, _ | PInf, PInf | Fin _, PInf => true
  | PInf, _ | Fin _, NInf => false
  end.

Definition Math_max (a b : number) : number :=
  match a, b with
  | NaN, _ | _, NaN => NaN
  | _, _ => if ngt b a then b else a
  end.

Definition Math_min (a b : number) : number :=
  match a, b with
  | NaN, _ | _, NaN => NaN
  | _, _ => if ngt a b then b else a
  end.

Definition is_integer (y : R) : bool :=
  if Req_dec_T (frac_part y) 0 then true else false.

Definition is_odd_integer (y : R) : bool :=
  is_integer y && Z.odd (Int_part y).

(** [Math.pow], case by case as ECMAScript's Number::exponentiate lists
    them, with [+0] for zero. *)
Definition Math_pow (base exponent : number) : number :=
  match exponent with
  | NaN => NaN
  | Fin y =>
      if Req_dec_T y 0 then Fin 1
      else
        match base with
        | NaN => NaN
        | PInf => if Rlt_dec 0 y then PInf else Fin 0
        | NInf =>
            if Rlt_dec 0 y
            then (if is_odd_integer y then NInf else PInf)
            else Fin 0
        | Fin x =>
            if Req_dec_T x 0 then (if Rlt_dec 0 y then Fin 0 else PInf)
            else if Rlt_dec 0 x then Fin (Rpower x y)
            else if is_integer y then Fin (powerRZ x (Int_part y))
            else NaN
        end
  | PInf =>
      match base with
      | NaN => NaN
      | PInf | NInf => PInf
      | Fin x =>
          if Rlt_dec 1 (Rabs x) then PInf
          else if Req_dec_T (Rabs x) 1 then NaN
          else Fin 0
      end
  | NInf =>
      match base with
      | NaN => NaN
      | PInf | NInf => Fin 0
      | Fin x =>
          if Rlt_dec 1 (Rabs x) then Fin 0
          else if Req_dec_T (Rabs x) 1 then NaN
          else PInf
      end
  end.

Definition Math_PI : number := Fin PI.

Infix "+" := nadd : js_scope.
Infix "-" := nsub : js_scope.
Infix "*" := nmul : js_scope.
Infix "/" := ndiv : js_scope.
Infix ">?" := ngt (at level 70, no associativity) : js_scope.
Infix "<=?" := nle (at level 70, no associativity) : js_scope.

(** ** [types.ts] *)

Inductive ChlorineChemical : Type :=
| SODIUM_HYPOCHLORITE
| CHLORINE_GAS.

Inductive TankType : Type :=
| PIPE
| CIRCULAR
| RECTANGULAR
| SQUARE.

Inductive TurbidityLevel : Type :=
| LOW
| MID
| HIGH.

Definition ChlorineChemical_eqb (a b : ChlorineChemical) : bool :=
  match a, b with
  | SODIUM_HYPOCHLORITE, SODIUM_HYPOCHLORITE => true
  | CHLORINE_GAS, CHLORINE_GAS => true
  | _, _ => false
  end.

Definition TurbidityLevel_eqb (a b : TurbidityLevel) : bool :=
  match a, b with
  | LOW, LOW | MID, MID | HIGH, HIGH => true
  | _, _ => false
  end.

(** Every dimension is optional ([length?: number]). *)
Record TankDimensions : Type := mkTankDimensions {
  length : option R;
  width : option R;
  diameter : option R;
  waterDepth : option R
}.

Record AppState : Type := mkAppState {
  flowRate : R;
  chemical : ChlorineChemical;
  naOClConc : R;
  naOClDoseRate : R;
  gasDoseRate : R;
  tankType : TankType;
  dimensions : TankDimensions;
  isBaffled : bool;
  baffleFactor : R;
  pH : R;
  temperature : R;
  alkalinity : R;
  turbidity : TurbidityLevel
}.

Record CalculationResults : Type := mkCalculationResults {
  chlorineDose : number;
  volume : number;
  effectiveVolume : number;
  retentionTime : number;
  t10 : number;
  ctDose : number;
  effectiveCt : number;
  postDosePh : number;
  hoClFraction : number;
  lrvBacteriaApplied : number;
  lrvBacteriaEffective : number;
  lrvVirusApplied : number;
  lrvVirusEffective : number
}.

(** ** [constants.ts] *)

Definition KEEGAN_K_BACTERIA : number := 4.6.
Definition KEEGAN_THETA : number := 1.07.

Definition TURBIDITY_SHIELDING_FACTORS (t : TurbidityLevel) : number :=
  match t with
  | LOW => 1.0
  | MID => 0.8
  | HIGH => 0.5
  end.

(** ** [calculations.ts] *)

(** A destructuring default: [{ length = 0 } = dimensions]. *)
Definition or_default (o : option R) (d : R) : number :=
  match o with
  | Some v => Fin v
  | None => Fin d
  end.

Definition lookupVirusLrv (ct20 : number) : number :=
  (if ct20 <=? 0 then 0
   else if ct20 <=? 1.0 then 2.0 * ct20
   else if ct20 <=? 2.0 then 2.0 + (ct20 - 1.0) * 1.0
   else if ct20 <=? 3.0 then 3.0 + (ct20 - 2.0) * 1.0
   else 4.0 + (ct20 - 3.0) * 1.0)%js.

(** The body of [calculateResults], one definition per local variable, in
    the order of the source; each is a function of the state the source
    destructures. *)
Module calc.
Section Locals.
Variable state : AppState.

Let flowRate : number := flowRate state.
Let naOClConc : number := naOClConc state.
Let naOClDoseRate : number := naOClDoseRate state.
Let gasDoseRate : number := gasDoseRate state.
Let baffleFactor : number := baffleFactor state.
Let pH : number := pH state.
Let temperature : number := temperature state.
Let alkalinity : number := alkalinity state.

(* 1. chlorine dose (mg/L) *)
Definition massRate_kgh : number := ((naOClDoseRate * naOClConc) / 100)%js.

Definition dose_mgL : number :=
  (if ChlorineChemical_eqb (chemical state) SODIUM_HYPOCHLORITE then
     if flowRate >? 0 then (massRate_kgh * 24 * 1000) / flowRate else 0
   else
     if flowRate >? 0 then (gasDoseRate * 24 * 1000) / flowRate else 0)%js.

(* 2. volume (m3) *)
Definition length : number := or_default (length (dimensions state)) 0.
Definition width : number := or_default (width (dimensions state)) 0.
Definition diameter : number := or_default (diameter (dimensions state)) 0.
Definition waterDepth : number :=
  or_default (waterDepth (dimensions state)) 0.

Definition vol : number :=
  (match tankType state with
   | PIPE =>
       Math_PI * Math_pow (Math_max 0 diameter / 2) 2 * Math_max 0 length
   | CIRCULAR =>
       Math_PI * Math_pow (Math_max 0 diameter / 2) 2
       * Math_max 0 waterDepth
   | RECTANGULAR | SQUARE =>
       Math_max 0 length * Math_max 0 width * Math_max 0 waterDepth
   end)%js.

(* 3. retention time and T10 (min) *)
Definition q_m3h : number := (flowRate / 24)%js.

Definition t_min : number :=
  (if (vol >? 0) && (q_m3h >? 0) then (vol / q_m3h) * 60 else 0)%js.

Definition bf : number :=
  if isBaffled state then Math_max 0 baffleFactor else 0.1.

Definition t10 : number := (t_min * bf)%js.
Definition effectiveVol : number := (vol * bf)%js.

(* 4. post-dose pH: the value before the clamp, then the clamped one *)
Definition bufferFactor : number := Math_max alkalinity 10.

Definition postDosePh_unclamped : number :=
  (if ChlorineChemical_eqb (chemical state) CHLORINE_GAS
   then pH - (2.5 * dose_mgL / bufferFactor)
   else pH + (1.8 * dose_mgL / bufferFactor))%js.

Definition postDosePh : number :=
  Math_max 2 (Math_min 12 postDosePh_unclamped).

(* 5. HOCl fraction *)
Definition tKelvin : number := (temperature + 273.15)%js.
Definition pKa : number :=
  ((3000 / tKelvin) - 10.0686 + (0.0253 * tKelvin))%js.
Definition hoClFraction : number :=
  (1 / (1 + Math_pow 10 (postDosePh - pKa)))%js.

(* 6. Ct values *)
Definition ctDose : number := Math_max 0 (dose_mgL * t10)%js.
Definition effectiveCt : number :=
  Math_max 0 ((dose_mgL * hoClFraction) * t10)%js.

(* 7. corrections *)
Definition tempCorrection : number :=
  Math_pow KEEGAN_THETA (temperature - 20)%js.
Definition turbidityFactor : number :=
  TURBIDITY_SHIELDING_FACTORS (turbidity state).

(* 8. inactivation: the four results start at 0 and are assigned in the
   branch [turbidity !== HIGH] *)
Definition lrvBacteriaAppliedRaw : number :=
  ((KEEGAN_K_BACTERIA * tempCorrection * turbidityFactor) * ctDose)%js.
Definition lrvBacteriaEffectiveRaw : number :=
  ((KEEGAN_K_BACTERIA * tempCorrection * turbidityFactor)
   * effectiveCt)%js.

Definition ctDose20 : number := (ctDose * tempCorrection)%js.
Definition ctEffective20 : number := (effectiveCt * tempCorrection)%js.

Definition lrvVirusAppliedRaw : number := lookupVirusLrv ctDose20.
Definition lrvVirusEffectiveRaw : number := lookupVirusLrv ctEffective20.

Definition MAX_LRV : number := 4.0.

Definition lrvBacteriaApplied : number :=
  if negb (TurbidityLevel_eqb (turbidity state) HIGH)
  then Math_max 0 (Math_min MAX_LRV lrvBacteriaAppliedRaw)
  else 0.
Definition lrvBacteriaEffective : number :=
  if negb (TurbidityLevel_eqb (turbidity state) HIGH)
  then Math_max 0 (Math_min MAX_LRV lrvBacteriaEffectiveRaw)
  else 0.
Definition lrvVirusApplied : number :=
  if negb (TurbidityLevel_eqb (turbidity state) HIGH)
  then Math_max 0 (Math_min MAX_LRV lrvVirusAppliedRaw)
  else 0.
Definition lrvVirusEffective : number :=
  if negb (TurbidityLevel_eqb (turbidity state) HIGH)
  then Math_max 0 (Math_min MAX_LRV lrvVirusEffectiveRaw)
  else 0.
End Locals.
End calc.

Definition calculateResults (state : AppState) : CalculationResults :=
  {| chlorineDose := calc.dose_mgL state;
     volume := calc.vol state;
     effectiveVolume := calc.effectiveVol state;
     retentionTime := calc.t_min state;
     t10 := calc.t10 state;
     ctDose := calc.ctDose state;
     effectiveCt := calc.effectiveCt state;
     postDosePh := calc.postDosePh state;
     hoClFraction := calc.hoClFraction state;
     lrvBacteriaApplied := calc.lrvBacteriaApplied state;
     lrvBacteriaEffective := calc.lrvBacteriaEffective state;
     lrvVirusApplied := calc.lrvVirusApplied state;
     lrvVirusEffective := calc.lrvVirusEffective state |}.

(** ** The real value of each local of [calculateResults]

    Every local but [pKa] is a finite number whatever the state.  The
    definitions below name those reals; the lemmas after them prove that
    the embedded code computes them. *)

Definition dim (o : option R) : R :=
  match o with
  | Some v => v
  | None => 0
  end.

Definition dose_R (s : AppState) : R :=
  if Rlt_dec 0 (flowRate s) then
    match chemical s with
    | SODIUM_HYPOCHLORITE =>
        naOClDoseRate s * naOClConc s / 100 * 24 * 1000 / flowRate s
    | CHLORINE_GAS => gasDoseRate s * 24 * 1000 / flowRate s
    end
  else 0.

Definition vol_R (s : AppState) : R :=
  let d := dimensions s in
  match tankType s with
  | PIPE =>
      PI * (Rmax 0 (dim (diameter d)) / 2 * (Rmax 0 (dim (diameter d)) / 2))
      * Rmax 0 (dim (length d))
  | CIRCULAR =>
      PI * (Rmax 0 (dim (diameter d)) / 2 * (Rmax 0 (dim (diameter d)) / 2))
      * Rmax 0 (dim (waterDepth d))
  | RECTANGULAR | SQUARE =>
      Rmax 0 (dim (length d)) * Rmax 0 (dim (width d))
      * Rmax 0 (dim (waterDepth d))
  end.

Definition t_min_R (s : AppState) : R :=
  if Rlt_dec 0 (vol_R s) then
    if Rlt_dec 0 (flowRate s) then vol_R s / (flowRate s / 24) * 60 else 0
  else 0.

Definition bf_R (s : AppState) : R :=
  if isBaffled s then Rmax 0 (baffleFactor s) else 0.1.

Definition postDosePh_R (s : AppState) : R :=
  Rmax 2 (Rmin 12
    match chemical s with
    | CHLORINE_GAS => pH s - 2.5 * dose_R s / Rmax (alkalinity s) 10
    | SODIUM_HYPOCHLORITE => pH s + 1.8 * dose_R s / Rmax (alkalinity s) 10
    end).

Definition pKa_R (s : AppState) : R :=
  3000 / (temperature s + 273.15) - 10.0686
  + 0.0253 * (temperature s + 273.15).

Definition hoClFraction_R (s : AppState) : R :=
  if Req_dec_T (temperature s + 273.15) 0 then 1
  else 1 / (1 + Rpower 10 (postDosePh_R s - pKa_R s)).

Definition ctDose_R (s : AppState) : R :=
  Rmax 0 (dose_R s * (t_min_R s * bf_R s)).

Definition effectiveCt_R (s : AppState) : R :=
  Rmax 0 (dose_R s * hoClFraction_R s * (t_min_R s * bf_R s)).

Definition tempCorrection_R (s : AppState) : R :=
  Rpower 1.07 (temperature s - 20).

Definition turbidityFactor_R (t : TurbidityLevel) : R :=
  match t with
  | LOW => 1.0
  | MID => 0.8
  | HIGH => 0.5
  end.

(** The virus lookup on a finite number. *)
Definition lookupVirusLrv_R (x : R) : R :=
  if Rle_dec x 0 then 0
  else if Rle_dec x 1 then 2 * x
  else if Rle_dec x 2 then 2 + (x - 1) * 1
  else if Rle_dec x 3 then 3 + (x - 2) * 1
  else 4 + (x - 3) * 1.

(** The clamp of an LRV and the turbidity gate. *)
Definition clampLrv_R (x : R) : R := Rmax 0 (Rmin 4.0 x).

Definition lrvBacteria_R (s : AppState) (ct : R) : R :=
  if TurbidityLevel_eqb (turbidity s) HIGH then 0
  else clampLrv_R
         (4.6 * tempCorrection_R s * turbidityFactor_R (turbidity s) * ct).

Definition lrvVirus_R (s : AppState) (ct : R) : R :=
  if TurbidityLevel_eqb (turbidity s) HIGH then 0
  else clampLrv_R (lookupVirusLrv_R (ct * tempCorrection_R s)).

(** ** Vocabulary of the statements *)

(** The real a finite number holds. *)
Definition value_of (n : number) : R :=
  match n with
  | Fin x => x
  | _ => 0
  end.

(** The virus lookup as a curve over the reals. *)
Definition virusLrvCurve (x : R) : R := value_of (lookupVirusLrv (Fin x)).

(** [n >= 0], as JavaScript compares. *)
Definition nonneg (n : number) : Prop := (Fin 0 <=? n)%js = true.

(** [a <= b], as JavaScript compares. *)
Definition num_le (a b : number) : Prop := (a <=? b)%js = true.

(** A finite number within [tol] of [target]. *)
Definition approx (tol target : R) (n : number) : Prop :=
  match n with
  | Fin x => Rabs (x - target) <= tol
  | _ => False
  end.

Definition dim_nonneg (o : option R) : Prop :=
  match o with
  | Some v => 0 <= v
  | None => True
  end.

(** Every numeric field that measures a rate, a size or a concentration
    is non-negative. *)
Definition nonneg_inputs (s : AppState) : Prop :=
  0 <= flowRate s /\ 0 <= naOClConc s /\ 0 <= naOClDoseRate s /\
  0 <= gasDoseRate s /\
  dim_nonneg (length (dimensions s)) /\ dim_nonneg (width (dimensions s)) /\
  dim_nonneg (diameter (dimensions s)) /\
  dim_nonneg (waterDepth (dimensions s)) /\
  0 <= baffleFactor s /\ 0 <= alkalinity s.

(** ** Scenarios *)

(** Scenario A, the state the application starts from. *)
Definition scenarioA : AppState :=
  {| flowRate := 10000;
     chemical := SODIUM_HYPOCHLORITE;
     naOClConc := 12.5;
     naOClDoseRate := 5;
     gasDoseRate := 2;
     tankType := RECTANGULAR;
     dimensions := {| length := Some 20; width := Some 5;
                      diameter := None; waterDepth := Some 3 |};
     isBaffled := true;
     baffleFactor := 0.5;
     pH := 7.5;
     temperature := 20;
     alkalinity := 100;
     turbidity := LOW |}.

Definition with_turbidity (s : AppState) (t : TurbidityLevel) : AppState :=
  {| flowRate := flowRate s; chemical := chemical s;
     naOClConc := naOClConc s; naOClDoseRate := naOClDoseRate s;
     gasDoseRate := gasDoseRate s; tankType := tankType s;
     dimensions := dimensions s; isBaffled := isBaffled s;
     baffleFactor := baffleFactor s; pH := pH s;
     temperature := temperature s; alkalinity := alkalinity s;
     turbidity := t |}.

Definition with_temperature (s : AppState) (t : R) : AppState :=
  {| flowRate := flowRate s; chemical := chemical s;
     naOClConc := naOClConc s; naOClDoseRate := naOClDoseRate s;
     gasDoseRate := gasDoseRate s; tankType := tankType s;
     dimensions := dimensions s; isBaffled := isBaffled s;
     baffleFactor := baffleFactor s; pH := pH s;
     temperature := t; alkalinity := alkalinity s;
     turbidity := turbidity s |}.

Definition with_flowRate (s : AppState) (q : R) : AppState :=
  {| flowRate := q; chemical := chemical s;
     naOClConc := naOClConc s; naOClDoseRate := naOClDoseRate s;
     gasDoseRate := gasDoseRate s; tankType := tankType s;
     dimensions := dimensions s; isBaffled := isBaffled s;
     baffleFactor := baffleFactor s; pH := pH s;
     temperature := temperature s; alkalinity := alkalinity s;
     turbidity := turbidity s |}.

Definition with_tank (s : AppState) (t : TankType) (d : TankDimensions) :
  AppState :=
  {| flowRate := flowRate s; chemical := chemical s;
     naOClConc := naOClConc s; naOClDoseRate := naOClDoseRate s;
     gasDoseRate := gasDoseRate s; tankType := t;
     dimensions := d; isBaffled := isBaffled s;
     baffleFactor := baffleFactor s; pH := pH s;
     temperature := temperature s; alkalinity := alkalinity s;
     turbidity := turbidity s |}.

(** Scenario B: A above the turbidity threshold. *)
Definition scenarioB : AppState := with_turbidity scenarioA HIGH.

(** Scenario C: a pipe of diameter 0.5 and length 10; the two fields a
    pipe does not use hold arbitrary values. *)
Definition scenarioC : AppState :=
  with_tank scenarioA PIPE
    {| length := Some 10; width := Some 7; diameter := Some 0.5;
       waterDepth := Some 42 |}.


(** Scenario A with no flow. *)
Definition scenarioA_no_flow : AppState := with_flowRate scenarioA 0.

(** The values the regression fixture of scenario A expects, each within
    [tol] of its target. *)
Definition scenarioA_expected (tol : R) (r : CalculationResults) : Prop :=
  volume r = Fin 300 /\
  approx tol 15.0 (chlorineDose r) /\
  approx tol 43.2 (retentionTime r) /\
  approx tol 21.6 (t10 r) /\
  approx tol 324 (ctDose r).

(** ** Tactics *)

(** Rewriting base: the real value of each local of [calculateResults]. *)
Create Rewrite HintDb calc_value.

(** Expose the locals behind the output fields of the goal and replace
    them by their real values. *)
Ltac calc_values :=
  unfold calculateResults;
  cbn [chlorineDose volume effectiveVolume retentionTime t10 ctDose
       effectiveCt postDosePh hoClFraction lrvBacteriaApplied
       lrvBacteriaEffective lrvVirusApplied lrvVirusEffective];
  autorewrite with calc_value.

(** Case analysis on every [Rmax], [Rmin] and comparison of the goal, then
    linear arithmetic. *)
Ltac rmax_cases :=
  unfold Rmax, Rmin;
  repeat match goal with
         | |- context [Rle_dec ?a ?b] => destruct (Rle_dec a b)
         | |- context [Rlt_dec ?a ?b] => destruct (Rlt_dec a b)
         end;
  try lra.

(** ** More vocabulary: single-field updates *)

(** The global [isNaN] on a number. *)
Definition isNaN (n : number) : bool :=
  match n with
  | NaN => true
  | _ => false
  end.

Definition with_chemical (s : AppState) (c : ChlorineChemical) : AppState :=
  mkAppState (flowRate s) c (naOClConc s) (naOClDoseRate s) (gasDoseRate s)
    (tankType s) (dimensions s) (isBaffled s) (baffleFactor s) (pH s)
    (temperature s) (alkalinity s) (turbidity s).

Definition with_naOClConc (s : AppState) (v : R) : AppState :=
  mkAppState (flowRate s) (chemical s) v (naOClDoseRate s) (gasDoseRate s)
    (tankType s) (dimensions s) (isBaffled s) (baffleFactor s) (pH s)
    (temperature s) (alkalinity s) (turbidity s).

Definition with_naOClDoseRate (s : AppState) (v : R) : AppState :=
  mkAppState (flowRate s) (chemical s) (naOClConc s) v (gasDoseRate s)
    (tankType s) (dimensions s) (isBaffled s) (baffleFactor s) (pH s)
    (temperature s) (alkalinity s) (turbidity s).

Definition with_gasDoseRate (s : AppState) (v : R) : AppState :=
  mkAppState (flowRate s) (chemical s) (naOClConc s) (naOClDoseRate s) v
    (tankType s) (dimensions s) (isBaffled s) (baffleFactor s) (pH s)
    (temperature s) (alkalinity s) (turbidity s).

Definition with_tankType (s : AppState) (t : TankType) : AppState :=
  mkAppState (flowRate s) (chemical s) (naOClConc s) (naOClDoseRate s)
    (gasDoseRate s) t (dimensions s) (isBaffled s) (baffleFactor s) (pH s)
    (temperature s) (alkalinity s) (turbidity s).

Definition with_dimensions (s : AppState) (d : TankDimensions) : AppState :=
  mkAppState (flowRate s) (chemical s) (naOClConc s) (naOClDoseRate s)
    (gasDoseRate s) (tankType s) d (isBaffled s) (baffleFactor s) (pH s)
    (temperature s) (alkalinity s) (turbidity s).

Definition with_isBaffled (s : AppState) (b : bool) : AppState :=
  mkAppState (flowRate s) (chemical s) (naOClConc s) (naOClDoseRate s)
    (gasDoseRate s) (tankType s) (dimensions s) b (baffleFactor s) (pH s)
    (temperature s) (alkalinity s) (turbidity s).

Definition with_baffleFactor (s : AppState) (v : R) : AppState :=
  mkAppState (flowRate s) (chemical s) (naOClConc s) (naOClDoseRate s)
    (gasDoseRate s) (tankType s) (dimensions s) (isBaffled s) v (pH s)
    (temperature s) (alkalinity s) (turbidity s).

Definition with_pH (s : AppState) (v : R) : AppState :=
  mkAppState (flowRate s) (chemical s) (naOClConc s) (naOClDoseRate s)
    (gasDoseRate s) (tankType s) (dimensions s) (isBaffled s)
    (baffleFactor s) v (temperature s) (alkalinity s) (turbidity s).

Definition with_alkalinity (s : AppState) (v : R) : AppState :=
  mkAppState (flowRate s) (chemical s) (naOClConc s) (naOClDoseRate s)
    (gasDoseRate s) (tankType s) (dimensions s) (isBaffled s)
    (baffleFactor s) (pH s) (temperature s) v (turbidity s).

(** ** [App.tsx]: the state and its two change handlers *)

(** The state [useState] starts from. *)
Definition initialState : AppState := scenarioA.

(** [keyof AppState]. *)
Inductive AppStateKey : Type :=
| key_flowRate
| key_chemical
| key_naOClConc
| key_naOClDoseRate
| key_gasDoseRate
| key_tankType
| key_dimensions
| key_isBaffled
| key_baffleFactor
| key_pH
| key_temperature
| key_alkalinity
| key_turbidity.

(** The values the inputs of the form pass to [handleInputChange]
    ([value: any]): a number from [parseFloat], an enum label from a
    select or a button, a boolean from the checkbox. *)
Inductive InputValue : Type :=
| number_value (v : number)
| chemical_value (c : ChlorineChemical)
| tankType_value (t : TankType)
| boolean_value (b : bool)
| turbidity_value (t : TurbidityLevel).

Definition AppStateKey_eqb (a b : AppStateKey) : bool :=
  match a, b with
  | key_flowRate, key_flowRate | key_chemical, key_chemical
  | key_naOClConc, key_naOClConc | key_naOClDoseRate, key_naOClDoseRate
  | key_gasDoseRate, key_gasDoseRate | key_tankType, key_tankType
  | key_dimensions, key_dimensions | key_isBaffled, key_isBaffled
  | key_baffleFactor, key_baffleFactor | key_pH, key_pH
  | key_temperature, key_temperature | key_alkalinity, key_alkalinity
  | key_turbidity, key_turbidity => true
  | _, _ => false
  end.

(** [processedValue === TankType.PIPE]. *)
Definition is_PIPE (v : InputValue) : bool :=
  match v with
  | tankType_value PIPE => true
  | _ => false
  end.

(** [{ ...prev, [field]: value }].  The record holds finite numbers and
    typed fields: the result is [None] when the value is not of the
    field's type or is not a finite number, states the record of the
    engine does not describe. *)
Definition assign (prev : AppState) (field : AppStateKey) (value : InputValue)
  : option AppState :=
  match field, value with
  | key_flowRate, number_value (Fin r) => Some (with_flowRate prev r)
  | key_chemical, chemical_value c => Some (with_chemical prev c)
  | key_naOClConc, number_value (Fin r) => Some (with_naOClConc prev r)
  | key_naOClDoseRate, number_value (Fin r) =>
      Some (with_naOClDoseRate prev r)
  | key_gasDoseRate, number_value (Fin r) => Some (with_gasDoseRate prev r)
  | key_tankType, tankType_value t => Some (with_tankType prev t)
  | key_isBaffled, boolean_value b => Some (with_isBaffled prev b)
  | key_baffleFactor, number_value (Fin r) =>
      Some (with_baffleFactor prev r)
  | key_pH, number_value (Fin r) => Some (with_pH prev r)
  | key_temperature, number_value (Fin r) => Some (with_temperature prev r)
  | key_alkalinity, number_value (Fin r) => Some (with_alkalinity prev r)
  | key_turbidity, turbidity_value t => Some (with_turbidity prev t)
  | _, _ => None
  end.

(** [Math.max(0, isNaN(value) ? 0 : value)], the clamp both handlers
    apply to a number. *)
Definition clampInput (value : number) : number :=
  Math_max 0 (if isNaN value then 0 else value).

Definition handleInputChange (field : AppStateKey) (value : InputValue)
  (prev : AppState) : option AppState :=
  let processedValue :=
    match value with
    | number_value v => number_value (clampInput v)
    | _ => value
    end in
  match assign prev field processedValue with
  | Some newState =>
      if AppStateKey_eqb field key_tankType && is_PIPE processedValue
      then Some (with_isBaffled (with_baffleFactor newState 0.9) true)
      else Some newState
  | None => None
  end.

(** [keyof AppState['dimensions']]. *)
Inductive DimensionKey : Type :=
| key_length
| key_width
| key_diameter
| key_waterDepth.

(** [{ ...prev.dimensions, [field]: r }]. *)
Definition assign_dimension (d : TankDimensions) (field : DimensionKey)
  (r : R) : TankDimensions :=
  match field with
  | key_length => mkTankDimensions (Some r) (width d) (diameter d)
                    (waterDepth d)
  | key_width => mkTankDimensions (length d) (Some r) (diameter d)
                   (waterDepth d)
  | key_diameter => mkTankDimensions (length d) (width d) (Some r)
                      (waterDepth d)
  | key_waterDepth => mkTankDimensions (length d) (width d) (diameter d)
                        (Some r)
  end.

Definition handleDimensionChange (field : DimensionKey) (value : number)
  (prev : AppState) : option AppState :=
  match clampInput value with
  | Fin r =>
      Some (with_dimensions prev (assign_dimension (dimensions prev) field r))
  | _ => None
  end.

(** One change of the form, and the states the form can reach from
    [initialState]. *)
Inductive ui_step : AppState -> AppState -> Prop :=
| step_input (field : AppStateKey) (value : InputValue) (s s' : AppState) :
    handleInputChange field value s = Some s' -> ui_step s s'
| step_dimension (field : DimensionKey) (value : number) (s s' : AppState) :
    handleDimensionChange field value s = Some s' -> ui_step s s'.

Inductive reachable : AppState -> Prop :=
| reachable_initial : reachable initialState
| reachable_step (s s' : AppState) :
    reachable s -> ui_step s s' -> reachable s'.

(** Every number of the state is non-negative. *)
Definition nonneg_state (s : AppState) : Prop :=
  nonneg_inputs s /\ 0 <= pH s /\ 0 <= temperature s.

(** The dimensions the volume branch of a tank type reads. *)
Definition uses_dimension (t : TankType) (field : DimensionKey) : bool :=
  match t, field with
  | PIPE, key_diameter | PIPE, key_length => true
  | CIRCULAR, key_diameter | CIRCULAR, key_waterDepth => true
  | RECTANGULAR, key_length | RECTANGULAR, key_width
  | RECTANGULAR, key_waterDepth => true
  | SQUARE, key_length | SQUARE, key_width | SQUARE, key_waterDepth => true
  | _, _ => false
  end.

(** [a < b], as JavaScript compares. *)
Definition nlt (a b : number) : bool := ngt b a.



(** ** Comparisons that tolerate [NaN]

    [NaN] fails every comparison.  A bound stated as the failure of the
    opposite comparison therefore also holds of a [NaN]: it says what the
    number never is. *)

(** [n < 0] is false: [n] is [>= 0] or [NaN]. *)
Definition never_negative (n : number) : Prop := nlt n (Fin 0) = false.

(** [n > 0] is false: [n] is [<= 0] or [NaN]. *)
Definition never_positive (n : number) : Prop := ngt n (Fin 0) = false.

(** [a > b] is false: [a <= b], or one of the two is [NaN]. *)
Definition never_above (a b : number) : Prop := ngt a b = false.


(** Scenario A as a rectangular tank with no width. *)
Definition scenarioA_no_width : AppState :=
  with_dimensions scenarioA (mkTankDimensions (Some 20) None None (Some 3)).

(** ** The engine on binary64 numbers

    The same two functions on IEEE-754 doubles (Rocq's primitive floats:
    the basic operations round to nearest, ties to even, as JavaScript's
    do), for what depends on overflow and rounding: [Infinity * 0] is
    [NaN] here.  [Math.pow] follows the cases ECMAScript fixes
    (Number::exponentiate) and leaves the result it calls
    implementation-approximated, a finite non-zero base to a finite
    non-zero exponent, to the parameter [pow_approx]. *)
Module b64.
Import Stdlib.Floats.Floats.
#[local] Set Warnings "-inexact-float".
#[local] Open Scope float_scope.

Definition is_neg_zero (x : float) : bool :=
  match classify x with
  | NZero => true
  | _ => false
  end.

(** [Math.max] and [Math.min] of two numbers: [NaN] when either is,
    and [+0] above [-0]. *)
Definition Math_max (a b : float) : float :=
  if is_nan a || is_nan b then nan
  else if a <? b then b
  else if b <? a then a
  else if is_neg_zero a then b else a.

Definition Math_min (a b : float) : float :=
  if is_nan a || is_nan b then nan
  else if a <? b then a
  else if b <? a then b
  else if is_neg_zero a then a else b.

(** A finite double [m * 2^e] is an integer, an odd integer. *)
Definition is_integer (x : float) : bool :=
  match Prim2SF x with
  | S754_zero _ => true
  | S754_finite _ m e =>
      if (0 <=? e)%Z then true
      else Z.eqb (Z.land (Zpos m) (Z.ones (- e))) 0
  | _ => false
  end.

Definition is_odd_integer (x : float) : bool :=
  match Prim2SF x with
  | S754_finite _ m e =>
      if (0 <? e)%Z then false
      else is_integer x && Z.odd (Z.shiftr (Zpos m) (- e))
  | _ => false
  end.

Definition is_zero (x : float) : bool := x =? 0.

Section Pow.
Variable pow_approx : float -> float -> float.

Definition Math_pow (base exponent : float) : float :=
  if is_nan exponent then nan
  else if is_zero exponent then 1
  else if is_nan base then nan
  else if base =? infinity then (if 0 <? exponent then infinity else 0)
  else if base =? neg_infinity then
    if 0 <? exponent
    then (if is_odd_integer exponent then neg_infinity else infinity)
    else (if is_odd_integer exponent then (-0) else 0)
  else if is_zero base then
    if is_neg_zero base then
      if 0 <? exponent
      then (if is_odd_integer exponent then (-0) else 0)
      else (if is_odd_integer exponent then neg_infinity else infinity)
    else (if 0 <? exponent then 0 else infinity)
  else if exponent =? infinity then
    if 1 <? abs base then infinity
    else if abs base =? 1 then nan else 0
  else if exponent =? neg_infinity then
    if 1 <? abs base then 0
    else if abs base =? 1 then nan else infinity
  else if (base <? 0) && negb (is_integer exponent) then nan
  else pow_approx base exponent.
End Pow.

Definition Math_PI : float := 3.141592653589793.

Record TankDimensions : Type := mkTankDimensions {
  length : option float;
  width : option float;
  diameter : option float;
  waterDepth : option float
}.

Record AppState : Type := mkAppState {
  flowRate : float;
  chemical : ChlorineChemical;
  naOClConc : float;
  naOClDoseRate : float;
  gasDoseRate : float;
  tankType : TankType;
  dimensions : TankDimensions;
  isBaffled : bool;
  baffleFactor : float;
  pH : float;
  temperature : float;
  alkalinity : float;
  turbidity : TurbidityLevel
}.

Record CalculationResults : Type := mkCalculationResults {
  chlorineDose : float;
  volume : float;
  effectiveVolume : float;
  retentionTime : float;
  t10 : float;
  ctDose : float;
  effectiveCt : float;
  postDosePh : float;
  hoClFraction : float;
  lrvBacteriaApplied : float;
  lrvBacteriaEffective : float;
  lrvVirusApplied : float;
  lrvVirusEffective : float
}.

Definition KEEGAN_K_BACTERIA : float := 4.6.
Definition KEEGAN_THETA : float := 1.07.

Definition TURBIDITY_SHIELDING_FACTORS (t : TurbidityLevel) : float :=
  match t with
  | LOW => 1.0
  | MID => 0.8
  | HIGH => 0.5
  end.

Definition or_default (o : option float) (d : float) : float :=
  match o with
  | Some v => v
  | None => d
  end.

Definition lookupVirusLrv (ct20 : float) : float :=
  if ct20 <=? 0 then 0
  else if ct20 <=? 1.0 then 2.0 * ct20
  else if ct20 <=? 2.0 then 2.0 + (ct20 - 1.0) * 1.0
  else if ct20 <=? 3.0 then 3.0 + (ct20 - 2.0) * 1.0
  else 4.0 + (ct20 - 3.0) * 1.0.

(** The locals of [calculateResults], as in [calc]. *)
Module calc.
Section Locals.
Variable pow_approx : float -> float -> float.
Variable state : AppState.

Definition massRate_kgh : float :=
  (naOClDoseRate state * naOClConc state) / 100.

Definition dose_mgL : float :=
  if ChlorineChemical_eqb (chemical state) SODIUM_HYPOCHLORITE then
    if 0 <? flowRate state
    then (massRate_kgh * 24 * 1000) / flowRate state else 0
  else
    if 0 <? flowRate state
    then (gasDoseRate state * 24 * 1000) / flowRate state else 0.

Definition length : float := or_default (length (dimensions state)) 0.
Definition width : float := or_default (width (dimensions state)) 0.
Definition diameter : float := or_default (diameter (dimensions state)) 0.
Definition waterDepth : float :=
  or_default (waterDepth (dimensions state)) 0.

Definition vol : float :=
  match tankType state with
  | PIPE =>
      Math_PI * Math_pow pow_approx (Math_max 0 diameter / 2) 2
      * Math_max 0 length
  | CIRCULAR =>
      Math_PI * Math_pow pow_approx (Math_max 0 diameter / 2) 2
      * Math_max 0 waterDepth
  | RECTANGULAR | SQUARE =>
      Math_max 0 length * Math_max 0 width * Math_max 0 waterDepth
  end.

Definition q_m3h : float := flowRate state / 24.

Definition t_min : float :=
  if (0 <? vol) && (0 <? q_m3h) then (vol / q_m3h) * 60 else 0.

Definition bf : float :=
  if isBaffled state then Math_max 0 (baffleFactor state) else 0.1.

Definition t10 : float := t_min * bf.
Definition effectiveVol : float := vol * bf.

Definition bufferFactor : float := Math_max (alkalinity state) 10.

Definition postDosePh_unclamped : float :=
  if ChlorineChemical_eqb (chemical state) CHLORINE_GAS
  then pH state - (2.5 * dose_mgL / bufferFactor)
  else pH state + (1.8 * dose_mgL / bufferFactor).

Definition postDosePh : float :=
  Math_max 2 (Math_min 12 postDosePh_unclamped).

Definition tKelvin : float := temperature state + 273.15.
Definition pKa : float := (3000 / tKelvin) - 10.0686 + (0.0253 * tKelvin).
Definition hoClFraction : float :=
  1 / (1 + Math_pow pow_approx 10 (postDosePh - pKa)).

Definition ctDose : float := Math_max 0 (dose_mgL * t10).
Definition effectiveCt : float :=
  Math_max 0 ((dose_mgL * hoClFraction) * t10).

Definition tempCorrection : float :=
  Math_pow pow_approx KEEGAN_THETA (temperature state - 20).
Definition turbidityFactor : float :=
  TURBIDITY_SHIELDING_FACTORS (turbidity state).

Definition lrvBacteriaAppliedRaw : float :=
  (KEEGAN_K_BACTERIA * tempCorrection * turbidityFactor) * ctDose.
Definition lrvBacteriaEffectiveRaw : float :=
  (KEEGAN_K_BACTERIA * tempCorrection * turbidityFactor) * effectiveCt.

Definition ctDose20 : float := ctDose * tempCorrection.
Definition ctEffective20 : float := effectiveCt * tempCorrection.

Definition lrvVirusAppliedRaw : float := lookupVirusLrv ctDose20.
Definition lrvVirusEffectiveRaw : float := lookupVirusLrv ctEffective20.

Definition MAX_LRV : float := 4.0.

Definition lrvBacteriaApplied : float :=
  if negb (TurbidityLevel_eqb (turbidity state) HIGH)
  then Math_max 0 (Math_min MAX_LRV lrvBacteriaAppliedRaw)
  else 0.
Definition lrvBacteriaEffective : float :=
  if negb (TurbidityLevel_eqb (turbidity state) HIGH)
  then Math_max 0 (Math_min MAX_LRV lrvBacteriaEffectiveRaw)
  else 0.
Definition lrvVirusApplied : float :=
  if negb (TurbidityLevel_eqb (turbidity state) HIGH)
  then Math_max 0 (Math_min MAX_LRV lrvVirusAppliedRaw)
  else 0.
Definition lrvVirusEffective : float :=
  if negb (TurbidityLevel_eqb (turbidity state) HIGH)
  then Math_max 0 (Math_min MAX_LRV lrvVirusEffectiveRaw)
  else 0.
End Locals.
End calc.

Definition calculateResults (pow_approx : float -> float -> float)
  (state : AppState) : CalculationResults :=
  {| chlorineDose := calc.dose_mgL state;
     volume := calc.vol pow_approx state;
     effectiveVolume := calc.effectiveVol pow_approx state;
     retentionTime := calc.t_min pow_approx state;
     t10 := calc.t10 pow_approx state;
     ctDose := calc.ctDose pow_approx state;
     effectiveCt := calc.effectiveCt pow_approx state;
     postDosePh := calc.postDosePh state;
     hoClFraction := calc.hoClFraction pow_approx state;
     lrvBacteriaApplied := calc.lrvBacteriaApplied pow_approx state;
     lrvBacteriaEffective := calc.lrvBacteriaEffective pow_approx state;
     lrvVirusApplied := calc.lrvVirusApplied pow_approx state;
     lrvVirusEffective := calc.lrvVirusEffective pow_approx state |}.

(** [x >= 0], as JavaScript compares ([NaN >= 0] is false). *)
Definition nonneg (x : float) : bool := 0 <=? x.

(** [x] within [tol] of [target]. *)
Definition approx (tol target x : float) : bool := abs (x - target) <=? tol.

Definition dim_nonneg (o : option float) : bool :=
  match o with
  | Some v => nonneg v
  | None => true
  end.

Definition nonneg_inputs (s : AppState) : bool :=
  nonneg (flowRate s) && nonneg (naOClConc s) && nonneg (naOClDoseRate s)
  && nonneg (gasDoseRate s)
  && dim_nonneg (length (dimensions s)) && dim_nonneg (width (dimensions s))
  && dim_nonneg (diameter (dimensions s))
  && dim_nonneg (waterDepth (dimensions s))
  && nonneg (baffleFactor s) && nonneg (alkalinity s).

(** Scenario A. *)
Definition scenarioA : AppState :=
  {| flowRate := 10000;
     chemical := SODIUM_HYPOCHLORITE;
     naOClConc := 12.5;
     naOClDoseRate := 5;
     gasDoseRate := 2;
     tankType := RECTANGULAR;
     dimensions := {| length := Some 20; width := Some 5;
                      diameter := None; waterDepth := Some 3 |};
     isBaffled := true;
     baffleFactor := 0.5;
     pH := 7.5;
     temperature := 20;
     alkalinity := 100;
     turbidity := LOW |}.




(** [x < 0] is false: [x] is [>= 0], or [NaN]. *)
Definition never_negative (x : float) : Prop := (x <? 0) = false.




End b64.

(** * Properties *)

(** ** Arithmetic of finite numbers *)

Lemma nadd_Fin (x y : R) : (Fin x + Fin y)%js = Fin (x + y).
Proof. reflexivity. Qed.

Lemma nsub_Fin (x y : R) : (Fin x - Fin y)%js = Fin (x - y).
Proof. reflexivity. Qed.

Lemma nmul_Fin (x y : R) : (Fin x * Fin y)%js = Fin (x * y).
Proof. reflexivity. Qed.

Lemma ndiv_Fin (x y : R) : y <> 0 -> (Fin x / Fin y)%js = Fin (x / y).
Proof.
  intros Hy. unfold ndiv. destruct (Req_dec_T y 0) as [E | _]; [contradiction | reflexivity].
Qed.

Lemma ndiv_Fin_zero (x : R) : 0 < x -> (Fin x / Fin 0)%js = PInf.
Proof.
  intros Hx. unfold ndiv, sign_case.
  destruct (Req_dec_T 0 0) as [_ | N]; [ | now elim N].
  destruct (Req_dec_T x 0) as [E | _]; [lra | ].
  destruct (Rlt_dec 0 x) as [_ | N]; [reflexivity | contradiction].
Qed.

Lemma ngt_Fin_true (x y : R) : y < x -> (Fin x >? Fin y)%js = true.
Proof.
  intros H. unfold ngt. destruct (Rlt_dec y x); [reflexivity | contradiction].
Qed.

Lemma ngt_Fin_false (x y : R) : x <= y -> (Fin x >? Fin y)%js = false.
Proof.
  intros H. unfold ngt. destruct (Rlt_dec y x); [lra | reflexivity].
Qed.

Lemma nle_Fin_true (x y : R) : x <= y -> (Fin x <=? Fin y)%js = true.
Proof.
  intros H. unfold nle. destruct (Rle_dec x y); [reflexivity | contradiction].
Qed.

Lemma nle_Fin_false (x y : R) : y < x -> (Fin x <=? Fin y)%js = false.
Proof.
  intros H. unfold nle. destruct (Rle_dec x y); [lra | reflexivity].
Qed.

Lemma Math_max_Fin (x y : R) : Math_max (Fin x) (Fin y) = Fin (Rmax x y).
Proof.
  unfold Math_max, ngt, Rmax.
  destruct (Rlt_dec x y), (Rle_dec x y); try reflexivity; f_equal; lra.
Qed.

Lemma Math_min_Fin (x y : R) : Math_min (Fin x) (Fin y) = Fin (Rmin x y).
Proof.
  unfold Math_min, ngt, Rmin.
  destruct (Rlt_dec y x), (Rle_dec x y); try reflexivity; f_equal; lra.
Qed.

Lemma Rpower_two (x : R) : 0 < x -> Rpower x 2 = x * x.
Proof.
  intros Hx. replace 2 with (1 + 1) by lra.
  rewrite Rpower_plus, Rpower_1 by assumption. reflexivity.
Qed.

(** [Math.pow(x, 2)] is the square on the non-negative numbers. *)
Lemma Math_pow_square (x : R) :
  0 <= x -> Math_pow (Fin x) (Fin 2) = Fin (x * x).
Proof.
  intros Hx. unfold Math_pow.
  destruct (Req_dec_T 2 0) as [E | _]; [lra | ].
  destruct (Req_dec_T x 0) as [E | N].
  - destruct (Rlt_dec 0 2) as [_ | N]; [ | lra]. subst x. f_equal. lra.
  - destruct (Rlt_dec 0 x) as [P | N']; [ | lra].
    f_equal. apply Rpower_two; assumption.
Qed.

(** [Math.pow] with a positive base and a finite exponent. *)
Lemma Math_pow_pos (x y : R) :
  0 < x -> Math_pow (Fin x) (Fin y) = Fin (Rpower x y).
Proof.
  intros Hx. unfold Math_pow.
  destruct (Req_dec_T y 0) as [E | _].
  - subst y. rewrite Rpower_O by assumption. reflexivity.
  - destruct (Req_dec_T x 0) as [E | _]; [lra | ].
    destruct (Rlt_dec 0 x) as [_ | N]; [reflexivity | contradiction].
Qed.

Lemma Rpower_pos (x y : R) : 0 < Rpower x y.
Proof. unfold Rpower. apply exp_pos. Qed.

Lemma or_default_dim (o : option R) : or_default o 0 = Fin (dim o).
Proof. destruct o; reflexivity. Qed.

Lemma Rmax_0_nonneg (x : R) : 0 <= Rmax 0 x.
Proof. apply Rmax_l. Qed.

Lemma dose_mgL_value (s : AppState) : calc.dose_mgL s = Fin (dose_R s).
Proof.
  unfold calc.dose_mgL, calc.massRate_kgh, dose_R. cbv zeta.
  destruct (Rlt_dec 0 (flowRate s)) as [Hq | Hq].
  - rewrite ngt_Fin_true by assumption.
    destruct (chemical s); cbn [ChlorineChemical_eqb].
    + rewrite nmul_Fin, (ndiv_Fin _ 100) by lra.
      rewrite !nmul_Fin. apply ndiv_Fin. lra.
    + rewrite !nmul_Fin. apply ndiv_Fin. lra.
  - rewrite ngt_Fin_false by lra.
    destruct (chemical s); reflexivity.
Qed.

Lemma vol_value (s : AppState) : calc.vol s = Fin (vol_R s).
Proof.
  unfold calc.vol, vol_R, calc.length, calc.width, calc.diameter,
    calc.waterDepth, Math_PI. cbv zeta.
  rewrite !or_default_dim, !Math_max_Fin.
  destruct (tankType s).
  - rewrite (ndiv_Fin _ 2) by lra.
    rewrite Math_pow_square
      by (apply Rmult_le_pos; [apply Rmax_0_nonneg | lra]).
    reflexivity.
  - rewrite (ndiv_Fin _ 2) by lra.
    rewrite Math_pow_square
      by (apply Rmult_le_pos; [apply Rmax_0_nonneg | lra]).
    reflexivity.
  - reflexivity.
  - reflexivity.
Qed.

Lemma vol_R_nonneg (s : AppState) : 0 <= vol_R s.
Proof.
  unfold vol_R. cbv zeta.
  pose proof PI_RGT_0 as Hpi.
  pose proof (Rmax_0_nonneg (dim (diameter (dimensions s)))) as Hd.
  pose proof (Rmax_0_nonneg (dim (length (dimensions s)))) as Hl.
  pose proof (Rmax_0_nonneg (dim (width (dimensions s)))) as Hw.
  pose proof (Rmax_0_nonneg (dim (waterDepth (dimensions s)))) as Hh.
  set (d := Rmax 0 (dim (diameter (dimensions s)))) in *.
  assert (Hsq : 0 <= PI * (d / 2 * (d / 2))) by nra.
  destruct (tankType s).
  - apply Rmult_le_pos; assumption.
  - apply Rmult_le_pos; assumption.
  - repeat apply Rmult_le_pos; assumption.
  - repeat apply Rmult_le_pos; assumption.
Qed.

Lemma q_m3h_value (s : AppState) : calc.q_m3h s = Fin (flowRate s / 24).
Proof. unfold calc.q_m3h. cbv zeta. apply ndiv_Fin. lra. Qed.

Lemma t_min_value (s : AppState) : calc.t_min s = Fin (t_min_R s).
Proof.
  unfold calc.t_min, t_min_R. rewrite vol_value, q_m3h_value.
  destruct (Rlt_dec 0 (vol_R s)) as [Hv | Hv].
  - rewrite (ngt_Fin_true (vol_R s)) by assumption. cbn [andb].
    destruct (Rlt_dec 0 (flowRate s)) as [Hq | Hq].
    + rewrite ngt_Fin_true by lra.
      rewrite ndiv_Fin by lra. reflexivity.
    + rewrite ngt_Fin_false by lra. reflexivity.
  - rewrite (ngt_Fin_false (vol_R s)) by lra. reflexivity.
Qed.

Lemma t_min_R_nonneg (s : AppState) : 0 <= t_min_R s.
Proof.
  unfold t_min_R.
  destruct (Rlt_dec 0 (vol_R s)) as [Hv | Hv]; [ | lra].
  destruct (Rlt_dec 0 (flowRate s)) as [Hq | Hq]; [ | lra].
  apply Rmult_le_pos; [ | lra].
  apply Rlt_le, Rdiv_lt_0_compat; lra.
Qed.

Lemma bf_value (s : AppState) : calc.bf s = Fin (bf_R s).
Proof.
  unfold calc.bf, bf_R. cbv zeta.
  destruct (isBaffled s); [apply Math_max_Fin | reflexivity].
Qed.

Lemma bf_R_nonneg (s : AppState) : 0 <= bf_R s.
Proof.
  unfold bf_R. destruct (isBaffled s); [apply Rmax_0_nonneg | lra].
Qed.

Lemma t10_value (s : AppState) : calc.t10 s = Fin (t_min_R s * bf_R s).
Proof. unfold calc.t10. rewrite t_min_value, bf_value. reflexivity. Qed.

Lemma effectiveVol_value (s : AppState) :
  calc.effectiveVol s = Fin (vol_R s * bf_R s).
Proof. unfold calc.effectiveVol. rewrite vol_value, bf_value. reflexivity. Qed.

Lemma bufferFactor_value (s : AppState) :
  calc.bufferFactor s = Fin (Rmax (alkalinity s) 10).
Proof. unfold calc.bufferFactor. cbv zeta. apply Math_max_Fin. Qed.

Lemma bufferFactor_pos (a : R) : 10 <= Rmax a 10.
Proof. apply Rmax_r. Qed.

Lemma postDosePh_value (s : AppState) :
  calc.postDosePh s = Fin (postDosePh_R s).
Proof.
  unfold calc.postDosePh, calc.postDosePh_unclamped, postDosePh_R. cbv zeta.
  rewrite dose_mgL_value, bufferFactor_value.
  pose proof (bufferFactor_pos (alkalinity s)) as Hb.
  rewrite !nmul_Fin, !ndiv_Fin by lra.
  destruct (chemical s); cbn [ChlorineChemical_eqb].
  - rewrite nadd_Fin, Math_min_Fin, Math_max_Fin. reflexivity.
  - rewrite nsub_Fin, Math_min_Fin, Math_max_Fin. reflexivity.
Qed.


(** At [temperature = -273.15] the divisor [tKelvin] is zero: [pKa] is
    [Infinity], the power is [0] and the fraction is [1]. *)
Lemma hoClFraction_value (s : AppState) :
  calc.hoClFraction s = Fin (hoClFraction_R s).
Proof.
  unfold calc.hoClFraction, calc.pKa, calc.tKelvin, hoClFraction_R, pKa_R.
  cbv zeta. rewrite postDosePh_value, nadd_Fin.
  destruct (Req_dec_T (temperature s + 273.15) 0) as [E | N].
  - rewrite E, ndiv_Fin_zero by lra.
    cbn [nsub nadd nneg nmul].
    unfold Math_pow.
    destruct (Rlt_dec 1 (Rabs 10)) as [_ | H].
    + cbn [nadd]. rewrite ndiv_Fin by lra. f_equal. lra.
    + exfalso. apply H. rewrite Rabs_pos_eq; lra.
  - rewrite ndiv_Fin by assumption.
    rewrite nsub_Fin, nmul_Fin, nadd_Fin, nsub_Fin.
    rewrite Math_pow_pos by lra.
    rewrite nadd_Fin.
    pose proof (Rpower_pos 10
      (postDosePh_R s
       - (3000 / (temperature s + 273.15) - 10.0686
          + 0.0253 * (temperature s + 273.15)))) as Hp.
    rewrite ndiv_Fin by lra. reflexivity.
Qed.

Lemma hoClFraction_R_range (s : AppState) : 0 < hoClFraction_R s <= 1.
Proof.
  unfold hoClFraction_R.
  destruct (Req_dec_T (temperature s + 273.15) 0) as [E | N]; [lra | ].
  pose proof (Rpower_pos 10 (postDosePh_R s - pKa_R s)) as Hp.
  split.
  - apply Rdiv_lt_0_compat; lra.
  - apply Rlt_le. apply (Rmult_lt_reg_r (1 + Rpower 10 (postDosePh_R s - pKa_R s))); [lra | ].
    unfold Rdiv. rewrite Rmult_assoc, Rinv_l by lra. lra.
Qed.

Lemma ctDose_value (s : AppState) : calc.ctDose s = Fin (ctDose_R s).
Proof.
  unfold calc.ctDose, ctDose_R.
  rewrite dose_mgL_value, t10_value, nmul_Fin. apply Math_max_Fin.
Qed.

Lemma effectiveCt_value (s : AppState) :
  calc.effectiveCt s = Fin (effectiveCt_R s).
Proof.
  unfold calc.effectiveCt, effectiveCt_R.
  rewrite dose_mgL_value, hoClFraction_value, t10_value, !nmul_Fin.
  apply Math_max_Fin.
Qed.

Lemma tempCorrection_value (s : AppState) :
  calc.tempCorrection s = Fin (tempCorrection_R s).
Proof.
  unfold calc.tempCorrection, tempCorrection_R, KEEGAN_THETA. cbv zeta.
  rewrite nsub_Fin. apply Math_pow_pos. lra.
Qed.

Lemma tempCorrection_R_pos (s : AppState) : 0 < tempCorrection_R s.
Proof. apply Rpower_pos. Qed.

(** The effective Ct never exceeds the applied Ct. *)
Lemma effectiveCt_le_ctDose (s : AppState) : effectiveCt_R s <= ctDose_R s.
Proof.
  unfold effectiveCt_R, ctDose_R.
  pose proof (hoClFraction_R_range s) as [Hh0 Hh1].
  set (p := dose_R s * (t_min_R s * bf_R s)).
  replace (dose_R s * hoClFraction_R s * (t_min_R s * bf_R s))
    with (p * hoClFraction_R s) by (unfold p; ring).
  unfold Rmax.
  destruct (Rle_dec 0 (p * hoClFraction_R s)), (Rle_dec 0 p); nra.
Qed.

Lemma lookupVirusLrv_value (x : R) :
  lookupVirusLrv (Fin x) = Fin (lookupVirusLrv_R x).
Proof.
  unfold lookupVirusLrv, lookupVirusLrv_R.
  destruct (Rle_dec x 0).
  { rewrite nle_Fin_true by lra. reflexivity. }
  rewrite nle_Fin_false by lra.
  destruct (Rle_dec x 1).
  { rewrite nle_Fin_true by lra. cbn [nmul]. f_equal. lra. }
  rewrite nle_Fin_false by lra.
  destruct (Rle_dec x 2).
  { rewrite nle_Fin_true by lra. cbn [nmul nadd nsub nneg]. f_equal. lra. }
  rewrite nle_Fin_false by lra.
  destruct (Rle_dec x 3).
  { rewrite nle_Fin_true by lra. cbn [nmul nadd nsub nneg]. f_equal. lra. }
  rewrite nle_Fin_false by lra.
  cbn [nmul nadd nsub nneg]. f_equal. lra.
Qed.

Lemma lookupVirusLrv_R_mono (x y : R) :
  x <= y -> lookupVirusLrv_R x <= lookupVirusLrv_R y.
Proof.
  intros H. unfold lookupVirusLrv_R.
  destruct (Rle_dec x 0), (Rle_dec x 1), (Rle_dec x 2), (Rle_dec x 3),
    (Rle_dec y 0), (Rle_dec y 1), (Rle_dec y 2), (Rle_dec y 3); lra.
Qed.

(** The lookup is 2-Lipschitz. *)
Lemma lookupVirusLrv_R_lipschitz (x y : R) :
  Rabs (lookupVirusLrv_R x - lookupVirusLrv_R y) <= 2 * Rabs (x - y).
Proof.
  unfold lookupVirusLrv_R, Rabs.
  destruct (Rle_dec x 0), (Rle_dec x 1), (Rle_dec x 2), (Rle_dec x 3),
    (Rle_dec y 0), (Rle_dec y 1), (Rle_dec y 2), (Rle_dec y 3);
    destruct (Rcase_abs (x - y));
    match goal with
    | |- context [Rcase_abs ?a] => destruct (Rcase_abs a)
    end; lra.
Qed.

Lemma turbidityFactor_value (s : AppState) :
  calc.turbidityFactor s = Fin (turbidityFactor_R (turbidity s)).
Proof. unfold calc.turbidityFactor. destruct (turbidity s); reflexivity. Qed.


Lemma clamp_value (x : R) :
  Math_max 0 (Math_min calc.MAX_LRV (Fin x)) = Fin (clampLrv_R x).
Proof.
  unfold calc.MAX_LRV, clampLrv_R. rewrite Math_min_Fin, Math_max_Fin.
  reflexivity.
Qed.

Lemma clampLrv_R_mono (x y : R) : x <= y -> clampLrv_R x <= clampLrv_R y.
Proof.
  intros H. unfold clampLrv_R, Rmax, Rmin.
  destruct (Rle_dec 4.0 x), (Rle_dec 4.0 y);
    repeat match goal with
           | |- context [Rle_dec ?a ?b] => destruct (Rle_dec a b)
           end; lra.
Qed.

Lemma lrvBacteriaAppliedRaw_value (s : AppState) :
  calc.lrvBacteriaAppliedRaw s
  = Fin (4.6 * tempCorrection_R s * turbidityFactor_R (turbidity s)
         * ctDose_R s).
Proof.
  unfold calc.lrvBacteriaAppliedRaw, KEEGAN_K_BACTERIA.
  rewrite tempCorrection_value, turbidityFactor_value, ctDose_value.
  reflexivity.
Qed.

Lemma lrvBacteriaEffectiveRaw_value (s : AppState) :
  calc.lrvBacteriaEffectiveRaw s
  = Fin (4.6 * tempCorrection_R s * turbidityFactor_R (turbidity s)
         * effectiveCt_R s).
Proof.
  unfold calc.lrvBacteriaEffectiveRaw, KEEGAN_K_BACTERIA.
  rewrite tempCorrection_value, turbidityFactor_value, effectiveCt_value.
  reflexivity.
Qed.

Lemma lrvBacteriaApplied_value (s : AppState) :
  calc.lrvBacteriaApplied s = Fin (lrvBacteria_R s (ctDose_R s)).
Proof.
  unfold calc.lrvBacteriaApplied, lrvBacteria_R.
  rewrite lrvBacteriaAppliedRaw_value, clamp_value.
  destruct (TurbidityLevel_eqb (turbidity s) HIGH); reflexivity.
Qed.

Lemma lrvBacteriaEffective_value (s : AppState) :
  calc.lrvBacteriaEffective s = Fin (lrvBacteria_R s (effectiveCt_R s)).
Proof.
  unfold calc.lrvBacteriaEffective, lrvBacteria_R.
  rewrite lrvBacteriaEffectiveRaw_value, clamp_value.
  destruct (TurbidityLevel_eqb (turbidity s) HIGH); reflexivity.
Qed.

Lemma lrvVirusApplied_value (s : AppState) :
  calc.lrvVirusApplied s = Fin (lrvVirus_R s (ctDose_R s)).
Proof.
  unfold calc.lrvVirusApplied, calc.lrvVirusAppliedRaw, calc.ctDose20,
    lrvVirus_R.
  rewrite ctDose_value, tempCorrection_value, nmul_Fin,
    lookupVirusLrv_value, clamp_value.
  destruct (TurbidityLevel_eqb (turbidity s) HIGH); reflexivity.
Qed.

Lemma lrvVirusEffective_value (s : AppState) :
  calc.lrvVirusEffective s = Fin (lrvVirus_R s (effectiveCt_R s)).
Proof.
  unfold calc.lrvVirusEffective, calc.lrvVirusEffectiveRaw,
    calc.ctEffective20, lrvVirus_R.
  rewrite effectiveCt_value, tempCorrection_value, nmul_Fin,
    lookupVirusLrv_value, clamp_value.
  destruct (TurbidityLevel_eqb (turbidity s) HIGH); reflexivity.
Qed.

#[global] Hint Rewrite dose_mgL_value vol_value effectiveVol_value
  t_min_value t10_value ctDose_value effectiveCt_value postDosePh_value
  hoClFraction_value lrvBacteriaApplied_value lrvBacteriaEffective_value
  lrvVirusApplied_value lrvVirusEffective_value bf_value : calc_value.



(** ** Scenario A *)

Lemma scenarioA_dose_R : dose_R scenarioA = 1.5.
Proof. unfold dose_R, scenarioA; cbn. rmax_cases. Qed.

Lemma scenarioA_vol_R : vol_R scenarioA = 300.
Proof. unfold vol_R, scenarioA; cbn. rmax_cases. Qed.

Lemma scenarioA_t_min_R : t_min_R scenarioA = 43.2.
Proof.
  unfold t_min_R. rewrite scenarioA_vol_R.
  unfold scenarioA; cbn. rmax_cases.
Qed.

Lemma scenarioA_bf_R : bf_R scenarioA = 0.5.
Proof. unfold bf_R, scenarioA; cbn. rmax_cases. Qed.

Lemma scenarioA_ctDose_R : ctDose_R scenarioA = 32.4.
Proof.
  unfold ctDose_R.
  rewrite scenarioA_dose_R, scenarioA_t_min_R, scenarioA_bf_R.
  rmax_cases.
Qed.

(** C1, as stated, fails.  The fixture's values (dose about 15.0, ctDose
    about 324) are not what [calculateResults] returns on scenario A, not
    even within a whole unit. *)
Lemma scenarioA_expected_fails :
  ~ scenarioA_expected 1 (calculateResults scenarioA).
Proof.
  unfold scenarioA_expected. calc_values. rewrite scenarioA_dose_R.
  intros (_ & Hdose & _). unfold approx in Hdose.
  revert Hdose. unfold Rabs.
  destruct (Rcase_abs (1.5 - 15.0)); lra.
Qed.

(** ** The turbidity gate *)

(** C2.  When turbidity is HIGH the four LRV outputs are exactly 0,
    whatever the rest of the state (and so whatever ctDose and
    effectiveCt are). *)
Theorem high_turbidity_zero_lrv (s : AppState) :
  turbidity s = HIGH ->
  let r := calculateResults s in
  lrvBacteriaApplied r = Fin 0 /\
  lrvBacteriaEffective r = Fin 0 /\
  lrvVirusApplied r = Fin 0 /\
  lrvVirusEffective r = Fin 0.
Proof.
  intros H. cbv zeta. unfold calculateResults.
  cbn [lrvBacteriaApplied lrvBacteriaEffective lrvVirusApplied
       lrvVirusEffective].
  unfold calc.lrvBacteriaApplied, calc.lrvBacteriaEffective,
    calc.lrvVirusApplied, calc.lrvVirusEffective.
  rewrite H. cbn [TurbidityLevel_eqb negb]. repeat split.
Qed.

Lemma high_turbidity_zero_lrv_scenarioB :
  turbidity scenarioB = HIGH /\
  lrvBacteriaApplied (calculateResults scenarioB) = Fin 0 /\
  lrvBacteriaEffective (calculateResults scenarioB) = Fin 0 /\
  lrvVirusApplied (calculateResults scenarioB) = Fin 0 /\
  lrvVirusEffective (calculateResults scenarioB) = Fin 0.
Proof.
  split; [reflexivity | ].
  apply (high_turbidity_zero_lrv scenarioB). reflexivity.
Defined.

(** ** No flow *)

(** C7.  With a flow rate that is zero or negative, chlorineDose,
    retentionTime, t10, ctDose and effectiveCt are the number 0 (not NaN,
    not an infinity). *)
Theorem no_flow_zero_outputs (s : AppState) :
  flowRate s <= 0 ->
  let r := calculateResults s in
  chlorineDose r = Fin 0 /\
  retentionTime r = Fin 0 /\
  t10 r = Fin 0 /\
  ctDose r = Fin 0 /\
  effectiveCt r = Fin 0.
Proof.
  intros Hq. cbv zeta. calc_values.
  assert (Hd : dose_R s = 0).
  { unfold dose_R. destruct (Rlt_dec 0 (flowRate s)); [lra | reflexivity]. }
  assert (Ht : t_min_R s = 0).
  { unfold t_min_R. destruct (Rlt_dec 0 (vol_R s)); [ | reflexivity].
    destruct (Rlt_dec 0 (flowRate s)); [lra | reflexivity]. }
  unfold ctDose_R, effectiveCt_R. rewrite Hd, Ht.
  repeat split; f_equal; try ring.
  - rewrite Rmult_0_l. apply Rmax_left. lra.
  - rewrite !Rmult_0_l. apply Rmax_left. lra.
Qed.

Lemma no_flow_zero_outputs_scenarioA :
  flowRate scenarioA_no_flow <= 0 /\
  chlorineDose (calculateResults scenarioA_no_flow) = Fin 0 /\
  retentionTime (calculateResults scenarioA_no_flow) = Fin 0 /\
  t10 (calculateResults scenarioA_no_flow) = Fin 0 /\
  ctDose (calculateResults scenarioA_no_flow) = Fin 0 /\
  effectiveCt (calculateResults scenarioA_no_flow) = Fin 0.
Proof.
  assert (H : flowRate scenarioA_no_flow <= 0) by (cbn; lra).
  split; [exact H | ].
  exact (no_flow_zero_outputs scenarioA_no_flow H).
Defined.

(** ** Post-dose pH *)


(** ** HOCl fraction *)


(** ** The virus lookup *)

Lemma virusLrvCurve_R (x : R) : virusLrvCurve x = lookupVirusLrv_R x.
Proof. unfold virusLrvCurve. rewrite lookupVirusLrv_value. reflexivity. Qed.

Lemma virusLrvCurve_continuous (x : R) : continuity_pt virusLrvCurve x.
Proof.
  intros eps Heps. exists (eps / 2). split; [lra | ].
  intros y [_ Hd]. unfold dist in *. cbn in *. unfold Rdist in *.
  rewrite !virusLrvCurve_R.
  pose proof (lookupVirusLrv_R_lipschitz y x). lra.
Qed.

(** C4.  On finite numbers the virus lookup is a curve that is continuous
    and non-decreasing on Ct20 >= 0, is 0 for every Ct20 <= 0, continues
    beyond 3.0 with slope 1.0, and passes exactly through (1, 2), (2, 3)
    and (3, 4). *)
Theorem lookupVirusLrv_shape :
  (forall x : R, lookupVirusLrv (Fin x) = Fin (virusLrvCurve x)) /\
  (forall x : R, 0 <= x -> continuity_pt virusLrvCurve x) /\
  (forall x y : R, 0 <= x -> x <= y -> virusLrvCurve x <= virusLrvCurve y) /\
  (forall x : R, x <= 0 -> lookupVirusLrv (Fin x) = Fin 0) /\
  (forall x : R, 3.0 <= x ->
     lookupVirusLrv (Fin x) = Fin (4.0 + 1.0 * (x - 3.0))) /\
  lookupVirusLrv (Fin 1.0) = Fin 2.0 /\
  lookupVirusLrv (Fin 2.0) = Fin 3.0 /\
  lookupVirusLrv (Fin 3.0) = Fin 4.0.
Proof.
  assert (Hval : forall x v, lookupVirusLrv_R x = v ->
                             lookupVirusLrv (Fin x) = Fin v).
  { intros x v <-. apply lookupVirusLrv_value. }
  repeat split.
  - intros x. rewrite virusLrvCurve_R. apply lookupVirusLrv_value.
  - intros x _. apply virusLrvCurve_continuous.
  - intros x y _ Hxy. rewrite !virusLrvCurve_R.
    apply lookupVirusLrv_R_mono; assumption.
  - intros x Hx. apply Hval. unfold lookupVirusLrv_R.
    destruct (Rle_dec x 0); [reflexivity | contradiction].
  - intros x Hx. apply Hval. unfold lookupVirusLrv_R.
    destruct (Rle_dec x 0), (Rle_dec x 1), (Rle_dec x 2), (Rle_dec x 3);
      lra.
  - apply Hval. unfold lookupVirusLrv_R.
    destruct (Rle_dec 1.0 0), (Rle_dec 1.0 1); lra.
  - apply Hval. unfold lookupVirusLrv_R.
    destruct (Rle_dec 2.0 0), (Rle_dec 2.0 1), (Rle_dec 2.0 2); lra.
  - apply Hval. unfold lookupVirusLrv_R.
    destruct (Rle_dec 3.0 0), (Rle_dec 3.0 1), (Rle_dec 3.0 2),
      (Rle_dec 3.0 3); lra.
Qed.

(** ** Non-negative outputs *)

Lemma nonneg_Fin (x : R) : 0 <= x -> nonneg (Fin x).
Proof. intros H. unfold nonneg. apply nle_Fin_true. assumption. Qed.

Lemma dose_R_nonneg (s : AppState) :
  0 <= naOClConc s -> 0 <= naOClDoseRate s -> 0 <= gasDoseRate s ->
  0 <= dose_R s.
Proof.
  intros Hc Hr Hg. unfold dose_R.
  destruct (Rlt_dec 0 (flowRate s)) as [Hq | Hq]; [ | lra].
  destruct (chemical s).
  - apply Rmult_le_pos; [ | apply Rlt_le, Rinv_0_lt_compat; assumption].
    assert (0 <= naOClDoseRate s * naOClConc s)
      by (apply Rmult_le_pos; assumption).
    lra.
  - apply Rmult_le_pos; [ | apply Rlt_le, Rinv_0_lt_compat; assumption].
    lra.
Qed.

(** ** Volume *)



(** ** Baffling *)



(** ** Effective against applied LRV *)

Lemma num_le_Fin (x y : R) : x <= y -> num_le (Fin x) (Fin y).
Proof. intros H. unfold num_le. apply nle_Fin_true. assumption. Qed.

(** * Further properties of the engine *)

(** ** What the result depends on *)

(** Two states with the same dose, volume, flow, baffle factor, chemistry
    and turbidity have the same result. *)
Lemma calculateResults_ext (s1 s2 : AppState) :
  calc.dose_mgL s1 = calc.dose_mgL s2 ->
  calc.vol s1 = calc.vol s2 ->
  flowRate s1 = flowRate s2 ->
  calc.bf s1 = calc.bf s2 ->
  chemical s1 = chemical s2 ->
  pH s1 = pH s2 ->
  temperature s1 = temperature s2 ->
  alkalinity s1 = alkalinity s2 ->
  turbidity s1 = turbidity s2 ->
  calculateResults s1 = calculateResults s2.
Proof.
  intros Hd Hv Hq Hb Hc Hp Ht Ha Hu.
  unfold calculateResults,
    calc.lrvBacteriaApplied, calc.lrvBacteriaEffective,
    calc.lrvVirusApplied, calc.lrvVirusEffective,
    calc.lrvVirusAppliedRaw, calc.lrvVirusEffectiveRaw,
    calc.ctDose20, calc.ctEffective20,
    calc.lrvBacteriaAppliedRaw, calc.lrvBacteriaEffectiveRaw,
    calc.turbidityFactor, calc.tempCorrection,
    calc.effectiveCt, calc.ctDose, calc.hoClFraction, calc.pKa,
    calc.tKelvin, calc.postDosePh, calc.postDosePh_unclamped,
    calc.bufferFactor, calc.effectiveVol, calc.t10, calc.t_min,
    calc.q_m3h.
  cbv zeta. rewrite Hd, Hv, Hq, Hb, Hc, Hp, Ht, Ha, Hu. reflexivity.
Qed.

(** ** Range of the LRV values *)

Lemma clampLrv_R_range (x : R) : 0 <= clampLrv_R x <= 4.
Proof. unfold clampLrv_R. rmax_cases. Qed.

Lemma lrvBacteria_R_range (s : AppState) (ct : R) :
  0 <= lrvBacteria_R s ct <= 4.
Proof.
  unfold lrvBacteria_R.
  destruct (TurbidityLevel_eqb (turbidity s) HIGH);
    [lra | apply clampLrv_R_range].
Qed.

Lemma lrvVirus_R_range (s : AppState) (ct : R) : 0 <= lrvVirus_R s ct <= 4.
Proof.
  unfold lrvVirus_R.
  destruct (TurbidityLevel_eqb (turbidity s) HIGH);
    [lra | apply clampLrv_R_range].
Qed.

(** ** Turbidity *)

(** X4.  Turbidity changes nothing but the four LRV outputs: the nine
    other outputs are the same whatever the turbidity level. *)
Theorem turbidity_changes_only_lrv (s : AppState) (t : TurbidityLevel) :
  let r := calculateResults s in
  let r' := calculateResults (with_turbidity s t) in
  chlorineDose r' = chlorineDose r /\
  volume r' = volume r /\
  effectiveVolume r' = effectiveVolume r /\
  retentionTime r' = retentionTime r /\
  t10 r' = t10 r /\
  ctDose r' = ctDose r /\
  effectiveCt r' = effectiveCt r /\
  postDosePh r' = postDosePh r /\
  hoClFraction r' = hoClFraction r.
Proof. cbv zeta. repeat split. Qed.

(** X5.  The virus LRVs are the same at LOW and at MID turbidity: only
    the bacteria kinetics carry the shielding factor. *)
Theorem virus_lrv_same_low_mid (s : AppState) :
  lrvVirusApplied (calculateResults (with_turbidity s MID))
  = lrvVirusApplied (calculateResults (with_turbidity s LOW)) /\
  lrvVirusEffective (calculateResults (with_turbidity s MID))
  = lrvVirusEffective (calculateResults (with_turbidity s LOW)).
Proof. split; reflexivity. Qed.

Lemma ctDose_R_nonneg (s : AppState) : 0 <= ctDose_R s.
Proof. apply Rmax_0_nonneg. Qed.

Lemma effectiveCt_R_nonneg (s : AppState) : 0 <= effectiveCt_R s.
Proof. apply Rmax_0_nonneg. Qed.

Lemma lrvBacteria_R_low_mid (s : AppState) (ct : R) :
  0 <= ct ->
  lrvBacteria_R (with_turbidity s MID) ct
  <= lrvBacteria_R (with_turbidity s LOW) ct.
Proof.
  intros Hct. unfold lrvBacteria_R. cbn [turbidity with_turbidity
    TurbidityLevel_eqb turbidityFactor_R].
  apply clampLrv_R_mono.
  change (tempCorrection_R (with_turbidity s MID))
    with (tempCorrection_R s).
  change (tempCorrection_R (with_turbidity s LOW))
    with (tempCorrection_R s).
  pose proof (tempCorrection_R_pos s) as Ht.
  assert (0 <= tempCorrection_R s * ct) by (apply Rmult_le_pos; lra).
  nra.
Qed.

(** ** Geometry *)

(** X7.  A square tank is computed exactly as a rectangular one: its
    volume is length * width * waterDepth (the width is read, the length
    is not squared), and every output agrees. *)
Theorem square_as_rectangular (s : AppState) :
  calculateResults (with_tankType s SQUARE)
  = calculateResults (with_tankType s RECTANGULAR).
Proof. apply calculateResults_ext; reflexivity. Qed.

(** The dimensions the volume of a tank type reads. *)
Lemma vol_R_zero_iff (s : AppState) :
  vol_R s = 0 <->
  let d := dimensions s in
  match tankType s with
  | PIPE => dim (diameter d) <= 0 \/ dim (length d) <= 0
  | CIRCULAR => dim (diameter d) <= 0 \/ dim (waterDepth d) <= 0
  | RECTANGULAR | SQUARE =>
      dim (length d) <= 0 \/ dim (width d) <= 0 \/ dim (waterDepth d) <= 0
  end.
Proof.
  unfold vol_R. cbv zeta.
  pose proof PI_RGT_0 as Hpi.
  set (l := dim (length (dimensions s))).
  set (w := dim (width (dimensions s))).
  set (dm := dim (diameter (dimensions s))).
  set (h := dim (waterDepth (dimensions s))).
  assert (Hmax : forall x, (Rmax 0 x = 0 <-> x <= 0) /\ 0 <= Rmax 0 x).
  { intros x. unfold Rmax. destruct (Rle_dec 0 x); split; try split; lra. }
  destruct (Hmax l) as [Hl Hl0], (Hmax w) as [Hw Hw0],
    (Hmax dm) as [Hd Hd0], (Hmax h) as [Hh Hh0].
  destruct (tankType s); split; intros H.
  - apply Rmult_integral in H. destruct H as [H | H]; [ | tauto].
    apply Rmult_integral in H. destruct H as [H | H]; [lra | ].
    left. apply Hd. nra.
  - destruct H as [H | H]; [apply Hd in H | apply Hl in H];
      rewrite H; unfold Rdiv; ring.
  - apply Rmult_integral in H. destruct H as [H | H]; [ | tauto].
    apply Rmult_integral in H. destruct H as [H | H]; [lra | ].
    left. apply Hd. nra.
  - destruct H as [H | H]; [apply Hd in H | apply Hh in H];
      rewrite H; unfold Rdiv; ring.
  - apply Rmult_integral in H. destruct H as [H | H]; [ | tauto].
    apply Rmult_integral in H. tauto.
  - destruct H as [H | [H | H]];
      [apply Hl in H | apply Hw in H | apply Hh in H]; rewrite H; ring.
  - apply Rmult_integral in H. destruct H as [H | H]; [ | tauto].
    apply Rmult_integral in H. tauto.
  - destruct H as [H | [H | H]];
      [apply Hl in H | apply Hw in H | apply Hh in H]; rewrite H; ring.
Qed.

(** ** No contact, no credit *)

Lemma no_contact_R (s : AppState) :
  t_min_R s = 0 -> ctDose_R s = 0 /\ effectiveCt_R s = 0.
Proof.
  intros Ht. unfold ctDose_R, effectiveCt_R. rewrite Ht.
  split.
  - replace (dose_R s * (0 * bf_R s)) with 0 by ring.
    apply Rmax_left. lra.
  - replace (dose_R s * hoClFraction_R s * (0 * bf_R s)) with 0 by ring.
    apply Rmax_left. lra.
Qed.

Lemma lookupVirusLrv_R_0 : lookupVirusLrv_R 0 = 0.
Proof.
  unfold lookupVirusLrv_R. destruct (Rle_dec 0 0); [reflexivity | lra].
Qed.

Lemma clampLrv_R_0 : clampLrv_R 0 = 0.
Proof. unfold clampLrv_R. rmax_cases. Qed.

Lemma lrv_R_no_ct (s : AppState) :
  lrvBacteria_R s 0 = 0 /\ lrvVirus_R s 0 = 0.
Proof.
  unfold lrvBacteria_R, lrvVirus_R.
  destruct (TurbidityLevel_eqb (turbidity s) HIGH); [split; reflexivity | ].
  rewrite Rmult_0_r, Rmult_0_l, lookupVirusLrv_R_0, clampLrv_R_0.
  split; reflexivity.
Qed.

(** ** Baffling *)

(** X13.  Not baffled, or baffled at the preset 0.1 ("Unbaffled
    (Mixed)"): the result is the same. *)
Theorem unbaffled_is_preset_01 (s : AppState) :
  calculateResults (with_isBaffled s false)
  = calculateResults (with_isBaffled (with_baffleFactor s 0.1) true).
Proof.
  apply calculateResults_ext; try reflexivity.
  rewrite !bf_value. f_equal. unfold bf_R. cbn.
  symmetry. apply Rmax_right. lra.
Qed.

(** ** Dosing *)

(** X14.  The dose rate of the chemical that is not selected is not
    read: with sodium hypochlorite the result does not depend on
    gasDoseRate, with chlorine gas it depends neither on naOClConc nor on
    naOClDoseRate. *)
Theorem unselected_chemical_ignored (s : AppState) (v : R) :
  (chemical s = SODIUM_HYPOCHLORITE ->
   calculateResults (with_gasDoseRate s v) = calculateResults s) /\
  (chemical s = CHLORINE_GAS ->
   calculateResults (with_naOClConc s v) = calculateResults s /\
   calculateResults (with_naOClDoseRate s v) = calculateResults s).
Proof.
  split.
  - intros Hc. apply calculateResults_ext; try reflexivity.
    unfold calc.dose_mgL. cbv zeta. cbn [chemical with_gasDoseRate].
    rewrite Hc. reflexivity.
  - intros Hc.
    split; apply calculateResults_ext; try reflexivity;
      unfold calc.dose_mgL; cbv zeta;
      cbn [chemical with_naOClConc with_naOClDoseRate];
      rewrite Hc; reflexivity.
Qed.

Lemma unselected_chemical_ignored_scenarioA :
  calculateResults (with_gasDoseRate scenarioA 1000)
  = calculateResults scenarioA.
Proof.
  apply (proj1 (unselected_chemical_ignored scenarioA 1000)). reflexivity.
Defined.

(** X15.  With non-negative dose rates and concentration and an initial
    pH in [2, 12], chlorine gas never raises the pH and sodium
    hypochlorite never lowers it. *)
Theorem pH_shift_direction (s : AppState) :
  0 <= naOClConc s -> 0 <= naOClDoseRate s -> 0 <= gasDoseRate s ->
  2 <= pH s <= 12 ->
  match chemical s with
  | CHLORINE_GAS => num_le (postDosePh (calculateResults s)) (Fin (pH s))
  | SODIUM_HYPOCHLORITE =>
      num_le (Fin (pH s)) (postDosePh (calculateResults s))
  end.
Proof.
  intros Hc Hr Hg [Hp2 Hp12].
  pose proof (dose_R_nonneg s Hc Hr Hg) as Hd.
  pose proof (bufferFactor_pos (alkalinity s)) as Hb.
  assert (Hq : 0 <= dose_R s / Rmax (alkalinity s) 10).
  { apply Rmult_le_pos; [assumption | ].
    apply Rlt_le, Rinv_0_lt_compat. lra. }
  destruct (chemical s) eqn:E; calc_values; apply num_le_Fin;
    unfold postDosePh_R; rewrite E.
  - replace (1.8 * dose_R s / Rmax (alkalinity s) 10)
      with (1.8 * (dose_R s / Rmax (alkalinity s) 10))
      by (unfold Rdiv; ring).
    eapply Rle_trans; [ | apply Rmax_r].
    apply Rmin_glb; lra.
  - replace (2.5 * dose_R s / Rmax (alkalinity s) 10)
      with (2.5 * (dose_R s / Rmax (alkalinity s) 10))
      by (unfold Rdiv; ring).
    apply Rmax_lub; [lra | ].
    eapply Rle_trans; [apply Rmin_r | lra].
Qed.

Lemma pH_shift_direction_scenarioA :
  num_le (Fin (pH scenarioA)) (postDosePh (calculateResults scenarioA)).
Proof.
  apply (pH_shift_direction scenarioA); cbn; lra.
Defined.

(** ** Credit and temperature *)

Lemma ctDose20_value (s : AppState) :
  calc.ctDose20 s = Fin (ctDose_R s * tempCorrection_R s).
Proof.
  unfold calc.ctDose20. rewrite ctDose_value, tempCorrection_value.
  reflexivity.
Qed.

Lemma ctEffective20_value (s : AppState) :
  calc.ctEffective20 s = Fin (effectiveCt_R s * tempCorrection_R s).
Proof.
  unfold calc.ctEffective20. rewrite effectiveCt_value, tempCorrection_value.
  reflexivity.
Qed.

Lemma full_virus_credit_R (x : R) :
  clampLrv_R (lookupVirusLrv_R x) = 4 <-> 3 <= x.
Proof.
  assert (Hclamp : forall l, clampLrv_R l = 4 <-> 4 <= l).
  { intros l. unfold clampLrv_R, Rmax, Rmin.
    destruct (Rle_dec 4.0 l);
      [destruct (Rle_dec 0 4.0) | destruct (Rle_dec 0 l)]; split; lra. }
  rewrite Hclamp. unfold lookupVirusLrv_R.
  destruct (Rle_dec x 0), (Rle_dec x 1), (Rle_dec x 2), (Rle_dec x 3);
    split; lra.
Qed.

Lemma nle_Fin_iff (x y : R) : (Fin x <=? Fin y)%js = true <-> x <= y.
Proof.
  unfold nle. destruct (Rle_dec x y); split; intros H;
    try assumption; try reflexivity; try discriminate; contradiction.
Qed.

Lemma not_HIGH_eqb (t : TurbidityLevel) :
  t <> HIGH -> TurbidityLevel_eqb t HIGH = false.
Proof. destruct t; intros H; [reflexivity | reflexivity | now elim H]. Qed.

(** X16.  Below the turbidity threshold the full virus credit of 4 log is
    returned exactly when the Ct normalised to 20 degrees is at least 3,
    for the applied and for the effective Ct. *)
Theorem full_virus_credit_iff (s : AppState) :
  turbidity s <> HIGH ->
  (lrvVirusApplied (calculateResults s) = Fin 4
   <-> num_le (Fin 3) (calc.ctDose20 s)) /\
  (lrvVirusEffective (calculateResults s) = Fin 4
   <-> num_le (Fin 3) (calc.ctEffective20 s)).
Proof.
  intros Hu. apply not_HIGH_eqb in Hu.
  calc_values. rewrite ctDose20_value, ctEffective20_value.
  unfold lrvVirus_R, num_le. rewrite Hu, !nle_Fin_iff.
  split; (split; intros H;
          [apply full_virus_credit_R; injection H as H; exact H
          | f_equal; apply full_virus_credit_R; exact H]).
Qed.

Lemma full_virus_credit_iff_scenarioA :
  turbidity scenarioA <> HIGH /\
  (lrvVirusApplied (calculateResults scenarioA) = Fin 4
   <-> num_le (Fin 3) (calc.ctDose20 scenarioA)) /\
  (lrvVirusEffective (calculateResults scenarioA) = Fin 4
   <-> num_le (Fin 3) (calc.ctEffective20 scenarioA)).
Proof.
  assert (H : turbidity scenarioA <> HIGH) by (cbn; discriminate).
  split; [exact H | ].
  exact (full_virus_credit_iff scenarioA H).
Defined.

(** ** HOCl fraction and pH *)

Lemma postDosePh_R_mono_pH (s : AppState) (p1 p2 : R) :
  p1 <= p2 -> postDosePh_R (with_pH s p1) <= postDosePh_R (with_pH s p2).
Proof.
  intros Hp. unfold postDosePh_R.
  change (dose_R (with_pH s p1)) with (dose_R s).
  change (dose_R (with_pH s p2)) with (dose_R s).
  cbn [chemical pH alkalinity with_pH].
  apply Rle_max_compat_l.
  assert (Hmin : forall a b, a <= b -> Rmin 12 a <= Rmin 12 b).
  { intros a b Hab. apply Rmin_glb; [apply Rmin_l | ].
    eapply Rle_trans; [apply Rmin_r | exact Hab]. }
  apply Hmin. destruct (chemical s); lra.
Qed.

(** X18.  A higher initial pH never raises the HOCl fraction: with every
    other field fixed, hoClFraction is non-increasing in pH. *)
Theorem hoClFraction_antitone_in_pH (s : AppState) (p1 p2 : R) :
  p1 <= p2 ->
  num_le (hoClFraction (calculateResults (with_pH s p2)))
         (hoClFraction (calculateResults (with_pH s p1))).
Proof.
  intros Hp. calc_values. apply num_le_Fin.
  pose proof (postDosePh_R_mono_pH s p1 p2 Hp) as Hph.
  unfold hoClFraction_R. cbn [temperature with_pH].
  destruct (Req_dec_T (temperature s + 273.15) 0); [lra | ].
  change (pKa_R (with_pH s p2)) with (pKa_R s).
  change (pKa_R (with_pH s p1)) with (pKa_R s).
  assert (Hpow : Rpower 10 (postDosePh_R (with_pH s p1) - pKa_R s)
                 <= Rpower 10 (postDosePh_R (with_pH s p2) - pKa_R s))
    by (apply Rle_Rpower; lra).
  pose proof (Rpower_pos 10 (postDosePh_R (with_pH s p1) - pKa_R s)) as H1.
  unfold Rdiv. rewrite !Rmult_1_l.
  apply Rinv_le_contravar; lra.
Qed.

Lemma hoClFraction_antitone_in_pH_scenarioA :
  num_le (hoClFraction (calculateResults (with_pH scenarioA 8)))
         (hoClFraction (calculateResults (with_pH scenarioA 7))).
Proof.
  apply (hoClFraction_antitone_in_pH scenarioA 7 8). lra.
Defined.

(** ** More on the virus lookup *)

Lemma lookupVirusLrv_PInf : lookupVirusLrv PInf = PInf.
Proof.
  unfold lookupVirusLrv. cbn [nle nsub nadd nneg nmul]. unfold sign_case.
  destruct (Req_dec_T 1.0 0); [lra | ].
  destruct (Rlt_dec 0 1.0); [reflexivity | lra].
Qed.

(** X20.  On the numbers that are not finite the virus lookup has no
    guard: NaN gives NaN, Infinity gives Infinity, -Infinity gives 0.  On
    every number the result is NaN exactly when the argument is, and is
    non-negative otherwise. *)
Theorem lookupVirusLrv_special_values :
  lookupVirusLrv NaN = NaN /\
  lookupVirusLrv PInf = PInf /\
  lookupVirusLrv NInf = Fin 0 /\
  forall n : number,
    isNaN (lookupVirusLrv n) = isNaN n /\
    (isNaN n = false -> nonneg (lookupVirusLrv n)).
Proof.
  split; [reflexivity | ]. split; [apply lookupVirusLrv_PInf | ].
  split; [reflexivity | ].
  intros [x | | | ].
  - rewrite lookupVirusLrv_value. split; [reflexivity | ].
    intros _. apply nonneg_Fin.
    pose proof (lookupVirusLrv_R_mono 0 x) as H.
    rewrite lookupVirusLrv_R_0 in H.
    destruct (Rle_dec 0 x) as [Hx | Hx]; [auto | ].
    unfold lookupVirusLrv_R. destruct (Rle_dec x 0); lra.
  - rewrite lookupVirusLrv_PInf. split; [reflexivity | intros _; reflexivity].
  - split; [reflexivity | intros _].
    unfold nonneg. cbn. apply nle_Fin_true. lra.
  - split; [reflexivity | discriminate].
Qed.

(** * The change handlers of the form *)

Lemma clampInput_Fin (r : R) : clampInput (Fin r) = Fin (Rmax 0 r).
Proof. unfold clampInput. cbn [isNaN]. apply Math_max_Fin. Qed.

Lemma clampInput_NaN : clampInput NaN = Fin 0.
Proof.
  unfold clampInput. cbn [isNaN]. rewrite Math_max_Fin. f_equal.
  apply Rmax_left. lra.
Qed.

Lemma clampInput_PInf : clampInput PInf = PInf.
Proof. reflexivity. Qed.

Lemma clampInput_NInf : clampInput NInf = Fin 0.
Proof. reflexivity. Qed.

Lemma clampInput_zero (v : number) :
  isNaN v = true \/ num_le v (Fin 0) -> clampInput v = Fin 0.
Proof.
  destruct v as [r | | | ]; intros [H | H]; try discriminate.
  - unfold num_le in H. rewrite nle_Fin_iff in H.
    rewrite clampInput_Fin. f_equal. apply Rmax_left. assumption.
  - reflexivity.
  - apply clampInput_NaN.
Qed.

(** X21.  The clamp both handlers apply to a typed number never yields
    NaN or a negative number: an empty field (NaN) and a negative number
    become 0, and a number that is already non-negative is kept, so that
    clamping twice changes nothing. *)
Theorem clampInput_sanitises (v : number) :
  isNaN (clampInput v) = false /\
  nonneg (clampInput v) /\
  (isNaN v = true \/ num_le v (Fin 0) -> clampInput v = Fin 0) /\
  (nonneg v -> clampInput v = v) /\
  clampInput (clampInput v) = clampInput v.
Proof.
  destruct v as [r | | | ].
  - rewrite !clampInput_Fin. repeat split.
    + apply nonneg_Fin, Rmax_0_nonneg.
    + intros [H | H]; [discriminate | ].
      unfold num_le in H. rewrite nle_Fin_iff in H.
      f_equal. apply Rmax_left. assumption.
    + intros H. unfold nonneg in H. rewrite nle_Fin_iff in H.
      f_equal. apply Rmax_right. assumption.
    + apply f_equal. apply Rmax_right, Rmax_0_nonneg.
  - rewrite !clampInput_PInf. unfold nonneg, num_le. cbn.
    repeat split. intros [H | H]; discriminate.
  - rewrite !clampInput_NInf, clampInput_Fin. unfold nonneg, num_le. cbn.
    split; [reflexivity | ]. split; [apply nle_Fin_true; lra | ].
    split; [reflexivity | ]. split; [discriminate | ].
    f_equal. apply Rmax_left. lra.
  - rewrite !clampInput_NaN, clampInput_Fin. unfold nonneg, num_le. cbn.
    split; [reflexivity | ]. split; [apply nle_Fin_true; lra | ].
    split; [reflexivity | ]. split; [discriminate | ].
    f_equal. apply Rmax_left. lra.
Qed.

Lemma nonneg_state_initial : nonneg_state initialState.
Proof.
  unfold nonneg_state, nonneg_inputs, initialState, scenarioA; cbn.
  repeat split; lra.
Qed.

Lemma handleInputChange_nonneg (field : AppStateKey) (value : InputValue)
  (s s' : AppState) :
  nonneg_state s -> handleInputChange field value s = Some s' ->
  nonneg_state s'.
Proof.
  unfold nonneg_state, nonneg_inputs.
  intros (Hin & Hp & Ht) H.
  destruct Hin as (Hq & Hc & Hr & Hg & Hl & Hw & Hd & Hh & Hb & Ha).
  unfold handleInputChange in H. cbv zeta in H.
  destruct value as [v | c | t | b | t].
  - destruct v as [r | | | ];
      [rewrite clampInput_Fin in H | rewrite clampInput_PInf in H
      | rewrite clampInput_NInf in H | rewrite clampInput_NaN in H];
      try pose proof (Rmax_0_nonneg r) as Hr0;
      destruct field; cbn in H; try discriminate;
      injection H as <-; cbn; repeat split; try assumption; lra.
  - destruct field; cbn in H; try discriminate.
    injection H as <-; cbn; repeat split; assumption.
  - destruct field; try discriminate.
    destruct t; cbn in H; injection H as <-; cbn;
      repeat split; try assumption; lra.
  - destruct field; cbn in H; try discriminate.
    injection H as <-; cbn; repeat split; assumption.
  - destruct field; cbn in H; try discriminate.
    injection H as <-; cbn; repeat split; assumption.
Qed.

Lemma handleDimensionChange_nonneg (field : DimensionKey) (value : number)
  (s s' : AppState) :
  nonneg_state s -> handleDimensionChange field value s = Some s' ->
  nonneg_state s'.
Proof.
  unfold nonneg_state, nonneg_inputs.
  intros (Hin & Hp & Ht) H.
  destruct Hin as (Hq & Hc & Hr & Hg & Hl & Hw & Hd & Hh & Hb & Ha).
  unfold handleDimensionChange in H.
  assert (Hv : exists r, 0 <= r /\ clampInput value = Fin r
                         \/ clampInput value = PInf).
  { destruct value as [r | | | ].
    - exists (Rmax 0 r). left. split;
        [apply Rmax_0_nonneg | apply clampInput_Fin].
    - exists 0. right. reflexivity.
    - exists 0. left. split; [lra | reflexivity].
    - exists 0. left. split; [lra | apply clampInput_NaN]. }
  destruct Hv as (r & [[Hr0 E] | E]); rewrite E in H; [ | discriminate].
  injection H as <-.
  destruct field; cbn; repeat split; assumption.
Qed.

Lemma ui_step_nonneg (s s' : AppState) :
  nonneg_state s -> ui_step s s' -> nonneg_state s'.
Proof.
  intros Hs Hstep.
  destruct Hstep as [field value s s' H | field value s s' H].
  - eapply handleInputChange_nonneg; eassumption.
  - eapply handleDimensionChange_nonneg; eassumption.
Qed.

(** A property of the initial state that every change keeps holds on
    every reachable state. *)
Lemma reachable_invariant (P : AppState -> Prop) :
  P initialState ->
  (forall s s' : AppState, P s -> ui_step s s' -> P s') ->
  forall s : AppState, reachable s -> P s.
Proof.
  intros Hinit Hstep s Hreach.
  induction Hreach as [ | s s' _ IH Hs]; [exact Hinit | ].
  exact (Hstep s s' IH Hs).
Qed.

(** X22.  Every state the form can reach from its initial state through
    [handleInputChange] and [handleDimensionChange] holds only
    non-negative numbers: flow, concentration, dose rates, every dimension
    that is set, baffle factor, pH, temperature and alkalinity. *)
Theorem reachable_nonneg (s : AppState) : reachable s -> nonneg_state s.
Proof.
  apply (reachable_invariant nonneg_state).
  - apply nonneg_state_initial.
  - apply ui_step_nonneg.
Qed.

(** Typing -5 into the temperature field of the initial form. *)
Lemma reachable_after_negative_temperature :
  reachable (with_temperature initialState (Rmax 0 (-5))).
Proof.
  apply (reachable_step initialState); [apply reachable_initial | ].
  apply (step_input key_temperature (number_value (Fin (-5)))).
  unfold handleInputChange. cbv zeta. rewrite clampInput_Fin. reflexivity.
Qed.

Lemma reachable_nonneg_after_negative_temperature :
  nonneg_state (with_temperature initialState (Rmax 0 (-5))).
Proof.
  exact (reachable_nonneg _ reachable_after_negative_temperature).
Defined.


(** ** Selecting a pipe *)


(** X25.  Selecting a shape other than the pipe changes the tankType
    field and nothing else: baffling forced by an earlier pipe selection
    stays as it is. *)
Theorem selecting_other_shape (prev : AppState) (t : TankType) :
  t <> PIPE ->
  handleInputChange key_tankType (tankType_value t) prev
  = Some (with_tankType prev t).
Proof.
  intros Ht. destruct t; [now elim Ht | reflexivity | reflexivity
                         | reflexivity].
Qed.

Lemma selecting_other_shape_after_pipe :
  handleInputChange key_tankType (tankType_value CIRCULAR)
    (with_isBaffled (with_baffleFactor (with_tankType scenarioA PIPE) 0.9)
       true)
  = Some (with_tankType
            (with_isBaffled
               (with_baffleFactor (with_tankType scenarioA PIPE) 0.9) true)
            CIRCULAR).
Proof.
  apply selecting_other_shape. discriminate.
Defined.

(** ** Dimension fields *)

Lemma vol_R_unused_dimension (s : AppState) (field : DimensionKey) (r : R) :
  uses_dimension (tankType s) field = false ->
  vol_R (with_dimensions s (assign_dimension (dimensions s) field r))
  = vol_R s.
Proof.
  intros Hu. unfold vol_R. cbn [dimensions tankType with_dimensions].
  destruct (tankType s), field; try discriminate Hu; reflexivity.
Qed.

(** X26.  A change of a dimension that the current tank type does not
    read (the width of a pipe, the length of a circular tank, ...) leaves
    the whole result unchanged, whatever is typed. *)
Theorem unused_dimension_ignored (field : DimensionKey) (value : number)
  (prev s' : AppState) :
  uses_dimension (tankType prev) field = false ->
  handleDimensionChange field value prev = Some s' ->
  calculateResults s' = calculateResults prev.
Proof.
  intros Hu H. unfold handleDimensionChange in H.
  destruct (clampInput value) as [r | | | ]; try discriminate.
  injection H as <-.
  apply calculateResults_ext; try reflexivity.
  rewrite !vol_value. f_equal. apply vol_R_unused_dimension. assumption.
Qed.

Lemma unused_dimension_ignored_pipe_width :
  calculateResults
    (with_dimensions scenarioC
       (assign_dimension (dimensions scenarioC) key_width (Rmax 0 1000)))
  = calculateResults scenarioC.
Proof.
  apply (unused_dimension_ignored key_width (Fin 1000) scenarioC).
  - reflexivity.
  - unfold handleDimensionChange. rewrite clampInput_Fin. reflexivity.
Defined.

(** ** What the results panel shows *)



(** * Bounds that hold whatever overflows

    In double precision a product can overflow to [Infinity], and
    [Infinity * 0] is [NaN] (see [b64_props] below).  The statements of
    this part are proved in exact arithmetic and say what an output never
    is: they do not rest on the absence of [NaN]. *)

Lemma never_negative_Fin (x : R) : 0 <= x -> never_negative (Fin x).
Proof.
  intros H. unfold never_negative, nlt. apply ngt_Fin_false. assumption.
Qed.

Lemma never_positive_Fin (x : R) : x <= 0 -> never_positive (Fin x).
Proof.
  intros H. unfold never_positive. apply ngt_Fin_false. assumption.
Qed.

Lemma never_above_Fin (x y : R) : x <= y -> never_above (Fin x) (Fin y).
Proof.
  intros H. unfold never_above. apply ngt_Fin_false. assumption.
Qed.

(** ** HOCl fraction *)


(** ** Effective against applied *)



(** X3.  For every state effectiveCt is never greater than ctDose. *)
Theorem effectiveCt_never_above_ctDose (s : AppState) :
  never_above (effectiveCt (calculateResults s))
              (ctDose (calculateResults s)).
Proof. calc_values. apply never_above_Fin, effectiveCt_le_ctDose. Qed.

(** ** Range of the LRVs *)

(** X1.  For every state none of the four LRV outputs is below 0 or above
    4. *)
Theorem lrv_outputs_never_outside_range (s : AppState) :
  let r := calculateResults s in
  (never_negative (lrvBacteriaApplied r) /\
   never_above (lrvBacteriaApplied r) (Fin 4)) /\
  (never_negative (lrvBacteriaEffective r) /\
   never_above (lrvBacteriaEffective r) (Fin 4)) /\
  (never_negative (lrvVirusApplied r) /\
   never_above (lrvVirusApplied r) (Fin 4)) /\
  (never_negative (lrvVirusEffective r) /\
   never_above (lrvVirusEffective r) (Fin 4)).
Proof.
  cbv zeta. calc_values.
  pose proof (lrvBacteria_R_range s (ctDose_R s)) as [? ?].
  pose proof (lrvBacteria_R_range s (effectiveCt_R s)) as [? ?].
  pose proof (lrvVirus_R_range s (ctDose_R s)) as [? ?].
  pose proof (lrvVirus_R_range s (effectiveCt_R s)) as [? ?].
  repeat split;
    first [apply never_negative_Fin | apply never_above_Fin]; assumption.
Qed.

(** X6.  A higher turbidity level never raises a bacteria LRV: with every
    other field fixed, the value at HIGH is never greater than the value
    at MID, nor the value at MID than the value at LOW, for the applied
    and for the effective LRV. *)
Theorem bacteria_lrv_never_rises_with_turbidity (s : AppState) :
  let low := calculateResults (with_turbidity s LOW) in
  let mid := calculateResults (with_turbidity s MID) in
  let high := calculateResults (with_turbidity s HIGH) in
  (never_above (lrvBacteriaApplied high) (lrvBacteriaApplied mid) /\
   never_above (lrvBacteriaApplied mid) (lrvBacteriaApplied low)) /\
  (never_above (lrvBacteriaEffective high) (lrvBacteriaEffective mid) /\
   never_above (lrvBacteriaEffective mid) (lrvBacteriaEffective low)).
Proof.
  cbv zeta. calc_values.
  change (ctDose_R (with_turbidity s LOW)) with (ctDose_R s).
  change (ctDose_R (with_turbidity s MID)) with (ctDose_R s).
  change (ctDose_R (with_turbidity s HIGH)) with (ctDose_R s).
  change (effectiveCt_R (with_turbidity s LOW)) with (effectiveCt_R s).
  change (effectiveCt_R (with_turbidity s MID)) with (effectiveCt_R s).
  change (effectiveCt_R (with_turbidity s HIGH)) with (effectiveCt_R s).
  assert (Hhigh : forall ct, lrvBacteria_R (with_turbidity s HIGH) ct = 0)
    by reflexivity.
  rewrite !Hhigh.
  pose proof (lrvBacteria_R_range (with_turbidity s MID) (ctDose_R s))
    as [? _].
  pose proof (lrvBacteria_R_range (with_turbidity s MID) (effectiveCt_R s))
    as [? _].
  repeat split; apply never_above_Fin; try assumption;
    apply lrvBacteria_R_low_mid;
    [apply ctDose_R_nonneg | apply effectiveCt_R_nonneg].
Qed.

(** ** No contact time, no positive credit *)

(** X9.  A tank of volume 0 gives no contact time: retentionTime and t10
    are 0, and none of ctDose, effectiveCt and the four LRVs is
    positive. *)
Theorem zero_volume_no_contact (s : AppState) :
  volume (calculateResults s) = Fin 0 ->
  let r := calculateResults s in
  retentionTime r = Fin 0 /\ t10 r = Fin 0 /\
  never_positive (ctDose r) /\ never_positive (effectiveCt r) /\
  never_positive (lrvBacteriaApplied r) /\
  never_positive (lrvBacteriaEffective r) /\
  never_positive (lrvVirusApplied r) /\
  never_positive (lrvVirusEffective r).
Proof.
  cbv zeta. calc_values. intros Hv. injection Hv as Hv.
  assert (Ht : t_min_R s = 0).
  { unfold t_min_R. destruct (Rlt_dec 0 (vol_R s)); [lra | reflexivity]. }
  destruct (no_contact_R s Ht) as [Hc He].
  destruct (lrv_R_no_ct s) as [Hb Hvir].
  rewrite Hc, He, Hb, Hvir, Ht.
  split; [reflexivity | ]. split; [f_equal; ring | ].
  repeat split; apply never_positive_Fin; lra.
Qed.

Lemma zero_volume_no_contact_no_width :
  volume (calculateResults scenarioA_no_width) = Fin 0 /\
  retentionTime (calculateResults scenarioA_no_width) = Fin 0 /\
  t10 (calculateResults scenarioA_no_width) = Fin 0 /\
  never_positive (ctDose (calculateResults scenarioA_no_width)) /\
  never_positive (effectiveCt (calculateResults scenarioA_no_width)) /\
  never_positive (lrvBacteriaApplied (calculateResults scenarioA_no_width))
  /\
  never_positive
    (lrvBacteriaEffective (calculateResults scenarioA_no_width)) /\
  never_positive (lrvVirusApplied (calculateResults scenarioA_no_width)) /\
  never_positive (lrvVirusEffective (calculateResults scenarioA_no_width)).
Proof.
  assert (H : volume (calculateResults scenarioA_no_width) = Fin 0).
  { calc_values. f_equal. apply vol_R_zero_iff. cbn. right. left. lra. }
  split; [exact H | ].
  exact (zero_volume_no_contact _ H).
Defined.

(** X10.  With a flow rate that is zero or negative none of the four LRV
    outputs is positive, whatever the turbidity. *)
Theorem no_flow_no_positive_credit (s : AppState) :
  flowRate s <= 0 ->
  let r := calculateResults s in
  never_positive (lrvBacteriaApplied r) /\
  never_positive (lrvBacteriaEffective r) /\
  never_positive (lrvVirusApplied r) /\
  never_positive (lrvVirusEffective r).
Proof.
  intros Hq. cbv zeta. calc_values.
  assert (Ht : t_min_R s = 0).
  { unfold t_min_R. destruct (Rlt_dec 0 (vol_R s)); [ | reflexivity].
    destruct (Rlt_dec 0 (flowRate s)); [lra | reflexivity]. }
  destruct (no_contact_R s Ht) as [Hc He].
  destruct (lrv_R_no_ct s) as [Hb Hvir].
  rewrite Hc, He, Hb, Hvir.
  repeat split; apply never_positive_Fin; lra.
Qed.

Lemma no_flow_no_positive_credit_scenarioA :
  never_positive (lrvBacteriaApplied (calculateResults scenarioA_no_flow))
  /\
  never_positive
    (lrvBacteriaEffective (calculateResults scenarioA_no_flow)) /\
  never_positive (lrvVirusApplied (calculateResults scenarioA_no_flow)) /\
  never_positive (lrvVirusEffective (calculateResults scenarioA_no_flow)).
Proof.
  apply (no_flow_no_positive_credit scenarioA_no_flow). cbn. lra.
Defined.

(** ** Baffling never adds *)

(** X11.  When the configured baffle factor is at most 1, t10 is never
    greater than retentionTime and effectiveVolume is never greater than
    volume, baffled or not. *)
Theorem baffling_never_increases (s : AppState) :
  baffleFactor s <= 1 ->
  let r := calculateResults s in
  never_above (t10 r) (retentionTime r) /\
  never_above (effectiveVolume r) (volume r).
Proof.
  intros Hb. cbv zeta. calc_values.
  pose proof (t_min_R_nonneg s) as Ht.
  pose proof (vol_R_nonneg s) as Hv.
  pose proof (bf_R_nonneg s) as Hb0.
  assert (Hb1 : bf_R s <= 1).
  { unfold bf_R. destruct (isBaffled s); [ | lra].
    apply Rmax_lub; lra. }
  split; apply never_above_Fin; nra.
Qed.

Lemma baffling_never_increases_scenarioA :
  never_above (t10 (calculateResults scenarioA))
              (retentionTime (calculateResults scenarioA)) /\
  never_above (effectiveVolume (calculateResults scenarioA))
              (volume (calculateResults scenarioA)).
Proof.
  apply (baffling_never_increases scenarioA). cbn. lra.
Defined.

(** ** The form and the unguarded division *)

(** X23.  On every state the form can reach, the one division of the
    engine that has no guard, 3000 / tKelvin, divides by at least 273.15:
    tKelvin >= 273.15 and the quotient is a finite number between 0 and
    11. *)
Theorem reachable_division_safe (s : AppState) :
  reachable s ->
  num_le (Fin 273.15) (calc.tKelvin s) /\
  exists q : R,
    (Fin 3000 / calc.tKelvin s)%js = Fin q /\ 0 <= q <= 11.
Proof.
  intros Hreach.
  destruct (reachable_invariant nonneg_state nonneg_state_initial
              ui_step_nonneg s Hreach) as (_ & _ & Ht).
  unfold calc.tKelvin. cbv zeta. rewrite nadd_Fin.
  split; [apply num_le_Fin; lra | ].
  exists (3000 / (temperature s + 273.15)).
  split; [apply ndiv_Fin; lra | ].
  split.
  - apply Rlt_le, Rdiv_lt_0_compat; lra.
  - apply (Rmult_le_reg_r (temperature s + 273.15)); [lra | ].
    unfold Rdiv. rewrite Rmult_assoc, Rinv_l by lra. nra.
Qed.

Lemma reachable_division_safe_after_negative_temperature :
  num_le (Fin 273.15)
         (calc.tKelvin (with_temperature initialState (Rmax 0 (-5)))) /\
  exists q : R,
    (Fin 3000
     / calc.tKelvin (with_temperature initialState (Rmax 0 (-5))))%js
    = Fin q /\ 0 <= q <= 11.
Proof.
  exact (reachable_division_safe _ reachable_after_negative_temperature).
Defined.

(** X27.  Clearing a dimension field the current tank type reads (the
    empty field parses to NaN), or typing a number that is zero or
    negative into it, stores 0 there; the engine then returns
    retentionTime 0 and a volume that is not positive. *)
Theorem cleared_dimension_no_contact (field : DimensionKey)
  (value : number) (prev : AppState) :
  uses_dimension (tankType prev) field = true ->
  isNaN value = true \/ num_le value (Fin 0) ->
  exists s' : AppState,
    handleDimensionChange field value prev = Some s' /\
    s' = with_dimensions prev (assign_dimension (dimensions prev) field 0) /\
    retentionTime (calculateResults s') = Fin 0 /\
    never_positive (volume (calculateResults s')).
Proof.
  intros Hu Hv.
  pose proof (clampInput_zero value Hv) as H0.
  eexists. split; [ | split; [reflexivity | ]].
  - unfold handleDimensionChange. rewrite H0. reflexivity.
  - set (s' := with_dimensions prev _).
    assert (Hvol : vol_R s' = 0).
    { apply vol_R_zero_iff. unfold s'.
      cbn [dimensions tankType with_dimensions].
      destruct (tankType prev), field; try discriminate Hu; cbn;
        auto using Rle_refl. }
    calc_values. rewrite Hvol. split.
    + f_equal. unfold t_min_R. rewrite Hvol.
      destruct (Rlt_dec 0 0); [lra | reflexivity].
    + apply never_positive_Fin. lra.
Qed.

Lemma cleared_dimension_no_contact_width :
  exists s' : AppState,
    handleDimensionChange key_width NaN scenarioA = Some s' /\
    s' = with_dimensions scenarioA
           (assign_dimension (dimensions scenarioA) key_width 0) /\
    retentionTime (calculateResults s') = Fin 0 /\
    never_positive (volume (calculateResults s')).
Proof.
  apply (cleared_dimension_no_contact key_width NaN scenarioA);
    [reflexivity | left; reflexivity].
Defined.

(** * The engine on binary64 numbers *)

Module b64_props.
Import Stdlib.Floats.Floats.
#[local] Set Warnings "-inexact-float".
#[local] Open Scope float_scope.


(** ** Signs

    A product or a quotient of doubles carries the exclusive or of the
    signs of its operands, or is [NaN]; rounding, overflow and underflow
    do not change it. *)












(** ** The signs of the locals *)





(** ** Scenario A *)

(** C1, as amended.  On scenario A, in double precision and whatever
    Math.pow returns, [calculateResults] gives volume = 300 and
    chlorineDose = 1.5 exactly, and retentionTime, t10 and ctDose within
    1e-9 of 43.2, 21.6 and 32.4: the dose is a tenth of the 15.0 the
    fixture expects, and ctDose with it. *)
Theorem scenarioA_values_binary64 (pow_approx : float -> float -> float) :
  let r := b64.calculateResults pow_approx b64.scenarioA in
  b64.volume r = 300 /\
  b64.chlorineDose r = 1.5 /\
  b64.approx 1e-9 1.5 (b64.chlorineDose r) = true /\
  b64.approx 1e-9 43.2 (b64.retentionTime r) = true /\
  b64.approx 1e-9 21.6 (b64.t10 r) = true /\
  b64.approx 1e-9 32.4 (b64.ctDose r) = true.
Proof. cbv zeta. repeat split; vm_compute; reflexivity. Qed.





End b64_props.
